(** * rfc3986.validators: a shallow embedding and its verification

    The development follows [src/rfc3986/validators.py]: the Python
    primitives the module relies on ([str.split], [str.lower], [int],
    [sorted], exceptions), the free validation functions, and the
    [Validator] object with its configuration methods and [validate].

    Text is modelled by [string] (one [ascii] per character), so the
    statements below speak about ASCII text. *)

From Stdlib Require Import ZArith Ascii String.
From stdpp Require Import gmap strings list sorting.

Local Open Scope string_scope.
Local Open Scope Z_scope.

(** ** Exceptions and results *)

(** The parsed URI handed to the validator: [rfc3986.uri.URIReference]
    seen through the seven attributes this module reads; [None] is an
    absent component. *)
Record URIReference := mkURI {
  scheme : option string;
  userinfo : option string;
  host : option string;
  port : option string;
  path : option string;
  query : option string;
  fragment : option string
}.

(** The exceptions that can leave this module. [ValueError] and
    [AttributeError] are Python's own; the other three are the classes of
    [rfc3986.exceptions] named in the docstring of [Validator.validate],
    with the arguments they are constructed from. *)
Inductive exn :=
| ValueError (msg : string)
| AttributeError (name : string)
| PasswordForbidden (uri : URIReference)
| MissingComponentError (uri : URIReference) (components : list string)
| UnpermittedComponentError (component_name component_value : string)
                            (allowed_values : list string).

(** A computation that either returns a value or raises. *)
Inductive result (A : Type) :=
| Ok (a : A)
| Raise (e : exn).
Arguments Ok {A} a.
Arguments Raise {A} e.

Global Instance result_ret : MRet result := @Ok.
Global Instance result_bind : MBind result := λ A B f m,
  match m with
  | Ok a => f a
  | Raise e => Raise e
  end.
Global Instance result_fmap : FMap result := λ A B f m,
  match m with
  | Ok a => Ok (f a)
  | Raise e => Raise e
  end.

(** A list comprehension whose element expression may raise: elements
    are evaluated left to right and the first exception escapes. *)
Fixpoint comprehension {A B} (f : A → result B) (l : list A) : result (list B) :=
  match l with
  | [] => Ok []
  | x :: l => y ← f x; ys ← comprehension f l; Ok (y :: ys)
  end.

(** ** Python string primitives

    The built-ins the module calls, on ASCII text. [int] reads literals
    as CPython 3 does (single underscores between digits are accepted
    from 3.6 on), with no limit on the number of digits: the limit of
    4300 digits that CPython 3.11 added, and that
    [sys.set_int_max_str_digits] lifts, is not modelled. *)

Module Py.

(** Put a character in front of the first piece of a split. *)
Definition push_char (c : ascii) (pieces : list string) : list string :=
  match pieces with
  | [] => [String c ""]
  | p :: ps => String c p :: ps
  end.

(** [s.split(sep)] for a one-character separator: every occurrence
    splits, and empty pieces are kept. *)
Fixpoint split (sep : ascii) (s : string) : list string :=
  match s with
  | "" => [""]
  | String c s' =>
      if decide (c = sep) then "" :: split sep s'
      else push_char c (split sep s')
  end.

(** [s.split(sep, maxsplit)]: at most [maxsplit] splits are made, the
    rest of the string is the last piece. *)
Fixpoint split_max (sep : ascii) (s : string) (maxsplit : nat) : list string :=
  match maxsplit with
  | O => [s]
  | S n =>
      match s with
      | "" => [""]
      | String c s' =>
          if decide (c = sep) then "" :: split_max sep s' n
          else push_char c (split_max sep s' maxsplit)
      end
  end.

(** [c.lower()] on one character. *)
Definition lower_char (c : ascii) : ascii :=
  let n := N_of_ascii c in
  if ((65 <=? n) && (n <=? 90))%N then ascii_of_N (n + 32) else c.

(** [s.lower()]. *)
Fixpoint lower (s : string) : string :=
  match s with
  | "" => ""
  | String c s' => String (lower_char c) (lower s')
  end.

(** White space as [int] strips it from ASCII text: tab, line feed,
    vertical tab, form feed, carriage return and space. *)
Definition is_space (c : ascii) : bool :=
  match c with
  | "009" | "010" | "011" | "012" | "013" | " " => true
  | _ => false
  end%char.

(** The value of a decimal digit, from its code point (48 is ["0"]). *)
Definition digit_value (c : ascii) : option Z :=
  let code := Z.of_N (N_of_ascii c) in
  if (48 <=? code) && (code <=? 57) then Some (code - 48) else None.

Fixpoint lstrip (s : string) : string :=
  match s with
  | String c s' => if is_space c then lstrip s' else s
  | "" => ""
  end.

Fixpoint all_space (s : string) : bool :=
  match s with
  | String c s' => is_space c && all_space s'
  | "" => true
  end.

(** The digit scanner of [int]: decimal digits, with single underscores
    allowed between two digits. [after_underscore] records that the
    previous character was an underscore. The scan stops at the first
    character that is neither, and returns the value read so far and
    the rest of the text. *)
Fixpoint scan_digits (acc : Z) (after_underscore : bool) (s : string)
  : option (Z * string) :=
  match s with
  | "" => if after_underscore then None else Some (acc, "")
  | String c s' =>
      match digit_value c with
      | Some d => scan_digits (10 * acc + d) false s'
      | None =>
          if after_underscore then None
          else if decide (c = "_"%char) then scan_digits acc true s'
          else Some (acc, s)
      end
  end.

(** The unsigned part: it must start with a digit. *)
Definition parse_unsigned (s : string) : option Z :=
  match s with
  | String c _ =>
      match digit_value c with
      | Some _ =>
          match scan_digits 0 false s with
          | Some (n, rest) => if all_space rest then Some n else None
          | None => None
          end
      | None => None
      end
  | "" => None
  end.

(** [int(s, base=10)] as a partial function: leading white space, an
    optional sign, the digits, trailing white space. *)
Definition parse_int (s : string) : option Z :=
  match lstrip s with
  | String "+" s' => parse_unsigned s'
  | String "-" s' => Z.opp <$> parse_unsigned s'
  | s' => parse_unsigned s'
  end.

(** *** [repr] of a text, as the message of [int] shows it *)

Definition apostrophe : ascii := "039"%char.
Definition double_quote : ascii := "034"%char.
Definition backslash : ascii := "092"%char.

Definition hex_digit (n : N) : ascii :=
  default "0"%char (String.get (N.to_nat n) "0123456789abcdef").

(** The escape [\xhh] of a character, two lower-case hexadecimal
    digits. *)
Definition hex_escape (c : ascii) : string :=
  let n := N_of_ascii c in
  String backslash
    (String "x" (String (hex_digit (n / 16)) (String (hex_digit (n mod 16)) ""))).

(** The characters [repr] copies as they are. Below 128 these are the
    codes 32 to 126; above, all from 161 on but the soft hyphen 173. *)
Definition is_printable (c : ascii) : bool :=
  let n := N_of_ascii c in
  (((32 <=? n) && (n <? 127)) || ((161 <=? n) && negb (n =? 173)))%N.

Definition contains (c : ascii) (s : string) : bool :=
  existsb (λ x, bool_decide (x = c)) (list_ascii_of_string s).

(** The quote [repr] puts around the text: the apostrophe, unless the
    text has an apostrophe and no double quote. *)
Definition repr_quote (s : string) : ascii :=
  if contains apostrophe s && negb (contains double_quote s)
  then double_quote else apostrophe.

Definition repr_char (quote c : ascii) : string :=
  if bool_decide (c = quote) || bool_decide (c = backslash)
  then String backslash (String c "")
  else if bool_decide (c = "009"%char) then String backslash "t"
  else if bool_decide (c = "010"%char) then String backslash "n"
  else if bool_decide (c = "013"%char) then String backslash "r"
  else if is_printable c then String c ""
  else hex_escape c.

Fixpoint repr_body (quote : ascii) (s : string) : string :=
  match s with
  | "" => ""
  | String c s' => repr_char quote c ++ repr_body quote s'
  end.

(** [repr(s)] *)
Definition repr (s : string) : string :=
  let quote := repr_quote s in
  String quote (repr_body quote s ++ String quote "").

(** The message of the [ValueError] of [int]: the format is
    ["invalid literal for int() with base %d: %.200R"], which shows at
    most the first 200 characters of [repr(s)]. *)
Definition invalid_literal (s : string) : string :=
  "invalid literal for int() with base 10: " ++ String.substring 0 200 (repr s).

(** [int(s, base=10)]: raises [ValueError] when the text is no
    integer literal. *)
Definition int (s : string) : result Z :=
  match parse_int s with
  | Some n => Ok n
  | None => Raise (ValueError (invalid_literal s))
  end.

(** [all(l)] on a list of booleans. *)
Definition all (l : list bool) : bool := forallb id l.

(** [sorted(l)] on a list of strings: ascending code point order. *)
Definition sorted (l : list string) : list string := merge_sort String.le l.

End Py.

(** ** Free validation functions *)

(** [valid_ipv4_host_address(host)]:
    [all([0 <= int(byte, base=10) <= 255 for byte in host.split('.')])].
    The list is built in full before [all] looks at it. *)
Definition valid_ipv4_host_address (host : string) : result bool :=
  checks ← comprehension
              (λ byte, n ← Py.int byte; Ok ((0 <=? n)%Z && (n <=? 255)%Z))
              (Py.split "." host);
  Ok (Py.all checks).

(** *** Matchers

    The compiled regular expressions live in [rfc3986.misc], which this
    module imports; here they are the parameters of the development. A
    matcher's [match] gives a match object or [None]. *)
Record Match := { matched : string }.
Record Matcher := { re_match : string → option Match }.

Class Misc := {
  SUBAUTHORITY_MATCHER : Matcher;
  IPv4_MATCHER : Matcher;
  SCHEME_MATCHER : Matcher;
  PATH_MATCHER : Matcher;
  QUERY_MATCHER : Matcher;
  FRAGMENT_MATCHER : Matcher
}.

(** [rfc3986.normalizers], as far as this module calls it. *)
Class Normalizers := {
  normalize_scheme : string → string;
  normalize_host : string → string
}.

(** The values [is_valid] can return: [and]/[or] hand back one of their
    operands, so the result is [True], [False], [None] or a match
    object. *)
Inductive pyvalue :=
| PyNone
| PyBool (b : bool)
| PyMatch (m : Match).

Definition of_match (r : option Match) : pyvalue :=
  match r with
  | Some m => PyMatch m
  | None => PyNone
  end.

(** Truth value testing. *)
Definition truthy (v : pyvalue) : bool :=
  match v with
  | PyNone => false
  | PyBool b => b
  | PyMatch _ => true
  end.

Definition is_valid (value : option string) (matcher : Matcher) (require : bool)
  : pyvalue :=
  if require then
    match value with
    | None => PyBool false
    | Some v => of_match (re_match matcher v)
    end
  else
    match value with
    | None => PyBool true
    | Some v => of_match (re_match matcher v)
    end.

Section free_functions.
Context `{Misc}.

Definition authority_is_valid (authority host : option string) (require : bool)
  : result pyvalue :=
  let validated := is_valid authority SUBAUTHORITY_MATCHER require in
  match host with
  | Some h =>
      if truthy validated && truthy (of_match (re_match IPv4_MATCHER h))
      then PyBool <$> valid_ipv4_host_address h
      else Ok validated
  | None => Ok validated
  end.

Definition scheme_is_valid (scheme : option string) (require : bool) : pyvalue :=
  is_valid scheme SCHEME_MATCHER require.

Definition path_is_valid (path : option string) (require : bool) : pyvalue :=
  is_valid path PATH_MATCHER require.

Definition query_is_valid (query : option string) (require : bool) : pyvalue :=
  is_valid query QUERY_MATCHER require.

Definition fragment_is_valid (fragment : option string) (require : bool) : pyvalue :=
  is_valid fragment FRAGMENT_MATCHER require.
End free_functions.

(** [getattr(uri, component)]: the seven component attributes; any other
    name is not one the validator ever asks for and raises. *)
Definition getattr (uri : URIReference) (name : string) : result (option string) :=
  if decide (name = "scheme") then Ok (scheme uri)
  else if decide (name = "userinfo") then Ok (userinfo uri)
  else if decide (name = "host") then Ok (host uri)
  else if decide (name = "port") then Ok (port uri)
  else if decide (name = "path") then Ok (path uri)
  else if decide (name = "query") then Ok (query uri)
  else if decide (name = "fragment") then Ok (fragment uri)
  else Raise (AttributeError name).

(** A list comprehension with an [if] clause whose condition may raise. *)
Fixpoint comprehension_if {A} (cond : A → result bool) (l : list A)
  : result (list A) :=
  match l with
  | [] => Ok []
  | x :: l =>
      b ← cond x; ys ← comprehension_if cond l;
      Ok (if b : bool then x :: ys else ys)
  end.

(** [check_password(uri)] *)
Definition check_password (uri : URIReference) : result unit :=
  match userinfo uri with
  | None | Some "" => Ok tt
  | Some userinfo =>
      let credentials := Py.split_max ":" userinfo 1 in
      if (length credentials <=? 1)%nat then Ok tt
      else Raise (PasswordForbidden uri)
  end.

(** [ensure_required_components_exist(uri, required_components)] *)
Definition ensure_required_components_exist
    (uri : URIReference) (required_components : list string) : result unit :=
  missing ← comprehension_if
              (λ component, v ← getattr uri component; Ok (bool_decide (v = None)))
              required_components;
  let missing_components := Py.sorted missing in
  match missing_components with
  | [] => Ok tt
  | _ :: _ => Raise (MissingComponentError uri missing_components)
  end.

(** ** The Validator object *)

Module Validator.

(** The instance attributes set by [__init__]. *)
Record t := mk {
  allowed_schemes : gset string;
  allowed_hosts : gset string;
  allowed_ports : gset Z;
  allow_password : bool;
  require_presence_of : gmap string bool
}.

Definition COMPONENT_NAMES : gset string :=
  {[ "scheme"; "userinfo"; "host"; "port"; "path"; "query"; "fragment" ]}.

(** [Validator()] *)
Definition init : t := {|
  allowed_schemes := ∅;
  allowed_hosts := ∅;
  allowed_ports := ∅;
  allow_password := true;
  require_presence_of :=
    <["scheme" := false]> (<["userinfo" := false]> (<["host" := false]>
    (<["port" := false]> (<["path" := false]> (<["query" := false]>
    (<["fragment" := false]> ∅))))))
|}.

(** *** Methods

    A method runs on [self], may change it in place, and returns or
    raises; what it did to [self] before raising stays done. The
    configuration methods end in [return self]: the object they return
    is the first component of the result. *)
Definition method (A : Type) : Type := t → t * result A.

Definition ret {A} (a : A) : method A := λ self, (self, Ok a).
Definition raise {A} (e : exn) : method A := λ self, (self, Raise e).
Definition lift {A} (r : result A) : method A := λ self, (self, r).
Definition bind {A B} (m : method A) (k : A → method B) : method B :=
  λ self,
    match m self with
    | (self', Ok a) => k a self'
    | (self', Raise e) => (self', Raise e)
    end.
(** Reading and assigning attributes of [self]. *)
Definition gets {A} (f : t → A) : method A := λ self, (self, Ok (f self)).
Definition modify (f : t → t) : method unit := λ self, (f self, Ok tt).

Declare Scope method_scope.
Delimit Scope method_scope with method.
Bind Scope method_scope with method.
Notation "x <- m ;; k" := (bind m (λ x, k))
  (at level 100, m at next level, right associativity) : method_scope.
Notation "m ;; k" := (bind m (λ _, k))
  (at level 100, right associativity) : method_scope.
Local Open Scope method_scope.

(** [for x in l: body(x)] *)
Fixpoint for_each {A} (l : list A) (body : A → method unit) : method unit :=
  match l with
  | [] => ret tt
  | x :: l => body x ;; for_each l body
  end.

Definition add_allowed_scheme (s : string) (self : t) : t :=
  mk ({[ s ]} ∪ allowed_schemes self) (allowed_hosts self) (allowed_ports self)
     (allow_password self) (require_presence_of self).
Definition add_allowed_host (h : string) (self : t) : t :=
  mk (allowed_schemes self) ({[ h ]} ∪ allowed_hosts self) (allowed_ports self)
     (allow_password self) (require_presence_of self).
Definition add_allowed_port (p : Z) (self : t) : t :=
  mk (allowed_schemes self) (allowed_hosts self) ({[ p ]} ∪ allowed_ports self)
     (allow_password self) (require_presence_of self).
Definition set_allow_password (b : bool) (self : t) : t :=
  mk (allowed_schemes self) (allowed_hosts self) (allowed_ports self)
     b (require_presence_of self).
(** [self.require_presence_of.update(d)]: the entries of [d] win. *)
Definition update_require_presence_of (d : gmap string bool) (self : t) : t :=
  mk (allowed_schemes self) (allowed_hosts self) (allowed_ports self)
     (allow_password self) (d ∪ require_presence_of self).

Definition not_a_valid_component (component : string) : string :=
  String "034" (component ++ String "034" " is not a valid component").

Section methods.
Context `{Normalizers}.

Definition allow_schemes (schemes : list string) : method unit :=
  for_each schemes (λ scheme,
    modify (add_allowed_scheme (normalize_scheme scheme))).

Definition allow_hosts (hosts : list string) : method unit :=
  for_each hosts (λ host,
    modify (add_allowed_host (normalize_host host))).
End methods.

Definition allow_ports (ports : list string) : method unit :=
  for_each ports (λ port,
    port_int <- lift (Py.int port) ;;
    if (0 <=? port_int)%Z && (port_int <=? 65535)%Z
    then modify (add_allowed_port port_int)
    else ret tt).

Definition allow_use_of_password : method unit :=
  modify (set_allow_password true).

Definition forbid_use_of_password : method unit :=
  modify (set_allow_password false).

Definition require_components (components : list string) : method unit :=
  let components := Py.lower <$> components in
  for_each components (λ component,
    if decide (component ∈ COMPONENT_NAMES) then ret tt
    else raise (ValueError (not_a_valid_component component))) ;;
  modify (update_require_presence_of
            (list_to_map ((λ component, (component, true)) <$> components))).

(** [validate(uri)]. The dict is read through [map_to_list]; the order
    of its items decides only which lookup would raise first were a key
    no attribute of the URI, since the missing names are sorted. *)
Definition validate (uri : URIReference) : method unit :=
  allow <- gets allow_password ;;
  (if allow then ret tt else lift (check_password uri)) ;;
  items <- gets (λ self, map_to_list (require_presence_of self)) ;;
  let required_components :=
    fst <$> filter (λ item, item.2 = true) items in
  match required_components with
  | [] => ret tt
  | _ :: _ => lift (ensure_required_components_exist uri required_components)
  end.

(** The configuration a validator can reach keeps the keys of
    [require_presence_of] the seven component names. *)
Definition keys_ok (self : t) : Prop :=
  dom (require_presence_of self) = COMPONENT_NAMES.

End Validator.

Import Validator.
Local Open Scope method_scope.

(** ** The vocabulary of the statements *)

(** The characters of a string. *)
Definition chars (s : string) : list ascii := list_ascii_of_string s.

(** A dot-separated part that reads as an integer in [lo, hi]. *)
Definition part_in_range (lo hi : Z) (part : string) : Prop :=
  ∃ n, Py.int part = Ok n ∧ lo ≤ n ≤ hi.

(** A dot-separated part that reads as an integer outside [lo, hi]. *)
Definition part_out_of_range (lo hi : Z) (part : string) : Prop :=
  ∃ n, Py.int part = Ok n ∧ ¬ (lo ≤ n ≤ hi).

(** The IPv4 literal check in the specification's words: exactly four
    dot-separated parts, each a base-10 integer in [0, 255]. *)
Definition spec_ipv4_literal (host : string) : Prop :=
  length (Py.split "." host) = 4%nat ∧
  Forall (part_in_range 0 255) (Py.split "." host).

(** The password test in the specification's words: the userinfo is
    present and has a [:] with a non-empty remainder after the first
    one. *)
Definition spec_password_present (uri : URIReference) : Prop :=
  ∃ user password,
    userinfo uri = Some (user ++ String ":" password) ∧
    ¬ (":"%char ∈ chars user) ∧ password ≠ "".

(** What the code tests: the userinfo is present and has a [:]. *)
Definition has_credentials_separator (uri : URIReference) : Prop :=
  ∃ s, userinfo uri = Some s ∧ ":"%char ∈ chars s.

(** The list [validate] builds from [require_presence_of]: the names
    whose flag is set, in the order the dict yields them. *)
Definition required_components (self : Validator.t) : list string :=
  fst <$> filter (λ item, item.2 = true)
                 (map_to_list (require_presence_of self)).

(** The test of the comprehension in
    [ensure_required_components_exist], where the attribute exists. *)
Definition is_None (uri : URIReference) (component : string) : bool :=
  match getattr uri component with
  | Ok None => true
  | _ => false
  end.

(** A required component that the URI lacks. *)
Definition missing_component (self : Validator.t) (uri : URIReference)
    (component : string) : Prop :=
  require_presence_of self !! component = Some true ∧
  getattr uri component = Ok None.

(** The first loop of [require_components], which checks the names. *)
Definition check_names (components : list string) : method unit :=
  for_each components (λ component,
    if decide (component ∈ COMPONENT_NAMES) then ret tt
    else raise (ValueError (not_a_valid_component component))).

(** The range test of [allow_ports]. *)
Definition port_in_range (n : Z) : Prop := 0 ≤ n ≤ 65535.

Global Instance port_in_range_dec n : Decision (port_in_range n).
Proof. unfold port_in_range. apply _. Defined.

(** ** Collaborators to run the code with *)

(** Modelled from the spec: [rfc3986.normalizers] is not among the
    sources; the specification describes scheme normalisation as case
    folding and asks of both functions that they be pure and
    deterministic. Lower-casing is taken for both. *)
Definition lowercase_normalizers : Normalizers := {|
  normalize_scheme := Py.lower;
  normalize_host := Py.lower
|}.

(** One to three decimal digits. *)
Definition is_digit_group (s : string) : bool :=
  bool_decide (1 ≤ String.length s ≤ 3)%nat &&
  forallb (λ c, bool_decide (is_Some (Py.digit_value c))) (chars s).

(** Modelled from the spec: the lightweight IPv4-shape matcher of
    [rfc3986.misc] (not among the sources), read as four groups of one
    to three decimal digits separated by dots, whatever their value. *)
Definition dotted_decimal : Matcher := {|
  re_match s :=
    let parts := Py.split "." s in
    if bool_decide (length parts = 4%nat) && forallb is_digit_group parts
    then Some {| matched := s |} else None
|}.

(** A set of matchers to run the free functions on: each accepts the
    dotted-decimal texts only, a part of what the real expressions
    accept. *)
Definition dotted_decimal_misc : Misc := {|
  SUBAUTHORITY_MATCHER := dotted_decimal;
  IPv4_MATCHER := dotted_decimal;
  SCHEME_MATCHER := dotted_decimal;
  PATH_MATCHER := dotted_decimal;
  QUERY_MATCHER := dotted_decimal;
  FRAGMENT_MATCHER := dotted_decimal
|}.

(** A matcher that accepts every text, and a set of such matchers: with
    them the byte check is reached on hosts that have a part that is no
    integer. *)
Definition any_text : Matcher := {| re_match s := Some {| matched := s |} |}.

Definition any_text_misc : Misc := {|
  SUBAUTHORITY_MATCHER := any_text;
  IPv4_MATCHER := any_text;
  SCHEME_MATCHER := any_text;
  PATH_MATCHER := any_text;
  QUERY_MATCHER := any_text;
  FRAGMENT_MATCHER := any_text
|}.

(** ** Sample validators and URIs *)

(** [Validator().forbid_use_of_password()] *)
Definition forbidding_password : Validator.t :=
  (forbid_use_of_password init).1.

(** [Validator().forbid_use_of_password().require_components("query")] *)
Definition forbidding_password_requiring_query : Validator.t :=
  (require_components ["query"] forbidding_password).1.

(** [Validator().require_components("scheme", "host", "path")] *)
Definition requiring_scheme_host_path : Validator.t :=
  (require_components ["scheme"; "host"; "path"] init).1.

(** [Validator().allow_schemes("http", "https")] *)
Definition allowing_http_https : Validator.t :=
  (@allow_schemes lowercase_normalizers ["http"; "https"] init).1.

(** A URI with a scheme and nothing else. *)
Definition uri_only_scheme : URIReference :=
  mkURI (Some "https") None None None None None None.

(** [https://<u>@example.com] *)
Definition uri_with_userinfo (u : string) : URIReference :=
  mkURI (Some "https") (Some u) (Some "example.com") None None None None.

(** [imap://mail.google.com], the URI of the class docstring. *)
Definition uri_imap : URIReference :=
  mkURI (Some "imap") None (Some "mail.google.com") None None None None.

(** ** The vocabulary of the further properties *)

(** The validator with the given allow-lists and the rest of [self]. *)
Definition with_allowed (schemes hosts : gset string) (ports : gset Z)
    (self : Validator.t) : Validator.t :=
  Validator.mk schemes hosts ports (allow_password self) (require_presence_of self).

(** Every allowed port is a port number. *)
Definition ports_in_range (self : Validator.t) : Prop :=
  ∀ p, p ∈ allowed_ports self → port_in_range p.

(** [later] allows all that [earlier] allows and requires all that it
    requires. *)
Definition accumulates (earlier later : Validator.t) : Prop :=
  allowed_schemes earlier ⊆ allowed_schemes later ∧
  allowed_hosts earlier ⊆ allowed_hosts later ∧
  allowed_ports earlier ⊆ allowed_ports later ∧
  ∀ component,
    require_presence_of earlier !! component = Some true →
    require_presence_of later !! component = Some true.

(** A component the URI has. *)
Definition present_component (uri : URIReference) (component : string) : Prop :=
  ∃ v, getattr uri component = Ok (Some v).

(** A non-empty text of decimal digits. *)
Definition digit_string (s : string) : Prop :=
  s ≠ "" ∧ Forall (λ c, is_Some (Py.digit_value c)) (chars s).

(** CPython's default limit on the number of digits [int] converts
    (3.11 and later). The model of [int] has no such limit; the
    statements about digit texts stay within it. *)
Definition int_max_str_digits : nat := 4300.

(** A digit text [int] converts in every version. *)
Definition decimal_literal (s : string) : Prop :=
  digit_string s ∧ (String.length s ≤ int_max_str_digits)%nat.

(** The number a text of decimal digits writes, most significant digit
    first, continuing from [acc]. *)
Fixpoint decimal_from (acc : Z) (s : string) : Z :=
  match s with
  | "" => acc
  | String c s' => decimal_from (10 * acc + default 0 (Py.digit_value c)) s'
  end.

Definition decimal (s : string) : Z := decimal_from 0 s.

(** * Verification *)

(** ** Comprehensions *)

Lemma comprehension_Ok {A B} (f : A → result B) l ys :
  comprehension f l = Ok ys ↔ Forall2 (λ x y, f x = Ok y) l ys.
Proof.
  revert ys. induction l as [|x l IH]; intros ys; simpl.
  - split.
    + intros [= <-]. constructor.
    + intros Hnil. inversion Hnil. reflexivity.
  - unfold mbind, result_bind. destruct (f x) as [y|e] eqn:Hx.
    + destruct (comprehension f l) as [zs|e] eqn:Hl.
      * split.
        -- intros [= <-]. constructor; [assumption|]. by apply IH.
        -- intros Hc. inversion Hc as [|? y' ? zs' Hy Hrest]; subst.
           apply IH in Hrest. congruence.
      * split; [discriminate|].
        intros Hc. inversion Hc as [|? y' ? zs' Hy Hrest]; subst.
        apply IH in Hrest. discriminate.
    + split; [discriminate|].
      intros Hc. inversion Hc; subst. congruence.
Qed.

Lemma comprehension_Raise {A B} (f : A → result B) l :
  (∃ e, comprehension f l = Raise e) ↔ Exists (λ x, ∃ e, f x = Raise e) l.
Proof.
  induction l as [|x l IH]; simpl.
  - split; [intros [e ?]; discriminate | intros Hex; inversion Hex].
  - unfold mbind, result_bind. destruct (f x) as [y|e] eqn:Hx.
    + destruct (comprehension f l) as [zs|e] eqn:Hl.
      * split; [intros [e ?]; discriminate|].
        intros Hex. inversion Hex as [? ? [e He]|? ? Hrest]; subst.
        -- congruence.
        -- apply IH in Hrest as [e ?]. discriminate.
      * split; [|by eauto].
        intros _. apply Exists_cons_tl, IH. eauto.
    + split; [|by eauto].
      intros _. apply Exists_cons_hd. eauto.
Qed.

Lemma comprehension_Raise_elem {A B} (f : A → result B) l e :
  comprehension f l = Raise e → ∃ x, x ∈ l ∧ f x = Raise e.
Proof.
  induction l as [|x l IH]; simpl; [discriminate|].
  unfold mbind, result_bind. destruct (f x) as [y|e'] eqn:Hx.
  - destruct (comprehension f l) as [zs|e'']; [discriminate|].
    intros [= ->]. destruct IH as (z & ? & ?); [reflexivity|].
    exists z. split; [by apply list_elem_of_further | assumption].
  - intros [= ->]. exists x. split; [apply list_elem_of_here | assumption].
Qed.

(** ** The IPv4 byte check *)

Lemma int_Ok part n : Py.int part = Ok n ↔ Py.parse_int part = Some n.
Proof.
  unfold Py.int. destruct (Py.parse_int part); split; congruence.
Qed.

Lemma int_Raise part :
  (∃ e, Py.int part = Raise e) ↔ Py.parse_int part = None.
Proof.
  unfold Py.int. destruct (Py.parse_int part); split;
    try congruence; eauto.
  intros [e ?]; discriminate.
Qed.

Lemma int_raises_ValueError part e :
  Py.int part = Raise e → e = ValueError (Py.invalid_literal part).
Proof.
  unfold Py.int. destruct (Py.parse_int part); congruence.
Qed.

(** The element expression of the comprehension in
    [valid_ipv4_host_address]. *)
Lemma byte_check_true part :
  (n ← Py.int part; Ok ((0 <=? n) && (n <=? 255))) = Ok true
  ↔ part_in_range 0 255 part.
Proof.
  unfold part_in_range, mbind, result_bind.
  destruct (Py.int part) as [n|e].
  - split.
    + intros [= Hn]. exists n. split; [reflexivity | lia].
    + intros (m & [= <-] & Hm). f_equal. lia.
  - split; [discriminate | intros (m & ? & _); discriminate].
Qed.

Lemma all_true_Forall2 {A} (f : A → result bool) l bs :
  Forall2 (λ x b, f x = Ok b) l bs →
  Py.all bs = true ↔ Forall (λ x, f x = Ok true) l.
Proof.
  induction 1 as [|x b l bs Hx _ IH]; simpl.
  - split; [constructor | reflexivity].
  - unfold Py.all in *. simpl. rewrite andb_true_iff, IH, Forall_cons.
    unfold id. split; intros [? ?]; split; congruence.
Qed.

Lemma valid_ipv4_true host :
  valid_ipv4_host_address host = Ok true
  ↔ Forall (part_in_range 0 255) (Py.split "." host).
Proof.
  unfold valid_ipv4_host_address.
  set (f := λ byte : string, _).
  assert (Hf : ∀ p, f p = Ok true ↔ part_in_range 0 255 p)
    by apply byte_check_true.
  rewrite <- (Forall_iff _ _ _ Hf).
  unfold mbind at 1. unfold result_bind.
  destruct (comprehension f (Py.split "." host)) as [bs|e] eqn:Hc.
  - apply comprehension_Ok in Hc.
    rewrite <- (all_true_Forall2 f _ _ Hc). split; congruence.
  - split; [discriminate|]. intros Hall.
    assert (Hex : ∃ e, comprehension f (Py.split "." host) = Raise e) by eauto.
    apply comprehension_Raise in Hex.
    apply Exists_exists in Hex as (p & Hp & e' & He').
    rewrite Forall_forall in Hall. specialize (Hall p Hp). congruence.
Qed.

Lemma valid_ipv4_raises host :
  Exists (λ part, Py.parse_int part = None) (Py.split "." host)
  ↔ ∃ part,
      part ∈ Py.split "." host ∧ Py.parse_int part = None ∧
      valid_ipv4_host_address host = Raise (ValueError (Py.invalid_literal part)).
Proof.
  split; [|intros (part & Hin & Hpart & _); apply Exists_exists; eauto].
  intros Hex. unfold valid_ipv4_host_address.
  set (f := λ byte : string, Py.int byte ≫= _).
  assert (Hr : ∃ e, comprehension f (Py.split "." host) = Raise e).
  { apply comprehension_Raise. eapply Exists_impl; [exact Hex|].
    intros p Hp. apply int_Raise in Hp as [e He].
    exists e. unfold f, mbind, result_bind. by rewrite He. }
  destruct Hr as [e Hr].
  destruct (comprehension_Raise_elem _ _ _ Hr) as (part & Hin & Hpart).
  unfold f, mbind, result_bind in Hpart.
  destruct (Py.int part) as [n|e'] eqn:Hint; [discriminate|].
  injection Hpart as ->.
  exists part. split; [assumption|]. split; [apply int_Raise; eauto|].
  apply int_raises_ValueError in Hint as ->.
  unfold mbind at 1. unfold result_bind. by rewrite Hr.
Qed.

Lemma comprehension_Raise_first {A B} (f : A → result B) l e :
  comprehension f l = Raise e ↔
  ∃ before x after,
    l = (before ++ x :: after)%list ∧
    Forall (λ y, ∃ b, f y = Ok b) before ∧
    f x = Raise e.
Proof.
  induction l as [|x l IH]; simpl.
  - split; [discriminate|].
    intros (before & y & after & Hl & _). by destruct before.
  - unfold mbind, result_bind. destruct (f x) as [b|e0] eqn:Hx.
    + destruct (comprehension f l) as [bs|e1] eqn:Hl.
      * split; [discriminate|].
        intros ([|z before] & y & after & Heq & Hbefore & Hy);
          simplify_eq/=; [congruence|].
        apply Forall_cons in Hbefore as [_ Hbefore].
        assert (Ok bs = Raise e) by (apply IH; eauto 6).
        discriminate.
      * split.
        -- intros [= ->].
           destruct (proj1 IH eq_refl) as (before & y & after & -> & Hbefore & Hy).
           exists (x :: before), y, after.
           split; [reflexivity|]. split; [|assumption].
           constructor; [eauto | assumption].
        -- intros ([|z before] & y & after & Heq & Hbefore & Hy);
             simplify_eq/=; [congruence|].
           apply Forall_cons in Hbefore as [_ Hbefore].
           assert (Raise e1 = Raise e) by (apply IH; eauto 6).
           congruence.
    + split.
      * intros [= ->]. exists [], x, l. by repeat split.
      * intros ([|z before] & y & after & Heq & Hbefore & Hy);
          simplify_eq/=; [congruence|].
        apply Forall_cons in Hbefore as [[b Hb] _]. congruence.
Qed.

Lemma valid_ipv4_Raise host e :
  valid_ipv4_host_address host = Raise e ↔
  ∃ before part after,
    Py.split "." host = (before ++ part :: after)%list ∧
    Forall (λ p, is_Some (Py.parse_int p)) before ∧
    Py.parse_int part = None ∧
    e = ValueError (Py.invalid_literal part).
Proof.
  unfold valid_ipv4_host_address.
  set (f := λ byte : string, Py.int byte ≫= _).
  assert (Hok : ∀ p, (∃ b, f p = Ok b) ↔ is_Some (Py.parse_int p)).
  { intros p. unfold f, mbind, result_bind, Py.int.
    destruct (Py.parse_int p) as [n|]; split; eauto.
    - intros [b ?]. discriminate.
    - intros [n ?]. discriminate. }
  assert (Hraise : ∀ p e, f p = Raise e ↔
            Py.parse_int p = None ∧ e = ValueError (Py.invalid_literal p)).
  { intros p e'. unfold f, mbind, result_bind, Py.int.
    destruct (Py.parse_int p) as [n|]; split.
    - discriminate.
    - intros [? _]. discriminate.
    - intros [= <-]. by split.
    - intros [_ ->]. reflexivity. }
  transitivity (comprehension f (Py.split "." host) = Raise e).
  { unfold mbind at 1. unfold result_bind.
    destruct (comprehension f (Py.split "." host)); split; congruence. }
  rewrite comprehension_Raise_first. split.
  - intros (before & part & after & Hsplit & Hbefore & Hpart).
    apply Hraise in Hpart as [Hnone ->].
    exists before, part, after. repeat split; try assumption.
    eapply Forall_impl; [exact Hbefore|]. intros p. apply Hok.
  - intros (before & part & after & Hsplit & Hbefore & Hnone & ->).
    exists before, part, after. repeat split; try assumption.
    + eapply Forall_impl; [exact Hbefore|]. intros p. apply Hok.
    + by apply Hraise.
Qed.

Lemma in_or_out_of_range (lo hi : Z) (parts : list string) :
  Forall (λ p, is_Some (Py.parse_int p)) parts →
  Forall (part_in_range lo hi) parts ∨ Exists (part_out_of_range lo hi) parts.
Proof.
  induction 1 as [|p parts [n Hn] _ [IH|IH]].
  - left. constructor.
  - apply int_Ok in Hn. destruct (decide (lo ≤ n ≤ hi)) as [Hin|Hout].
    + left. constructor; [by exists n | assumption].
    + right. apply Exists_cons_hd. by exists n.
  - right. by apply Exists_cons_tl.
Qed.

Lemma out_of_range_not_in_range (lo hi : Z) (parts : list string) :
  Exists (part_out_of_range lo hi) parts →
  ¬ Forall (part_in_range lo hi) parts.
Proof.
  intros Hex Hall. apply Exists_exists in Hex as (p & Hp & n & Hn & Hout).
  rewrite Forall_forall in Hall. destruct (Hall p Hp) as (m & Hm & Hin).
  congruence.
Qed.

Lemma valid_ipv4_false host :
  valid_ipv4_host_address host = Ok false ↔
  Forall (λ p, is_Some (Py.parse_int p)) (Py.split "." host) ∧
  Exists (part_out_of_range 0 255) (Py.split "." host).
Proof.
  split.
  - intros Hfalse.
    assert (Hparse : Forall (λ p, is_Some (Py.parse_int p)) (Py.split "." host)).
    { apply Forall_forall. intros p Hp.
      destruct (Py.parse_int p) as [n|] eqn:Hn; [by eexists|].
      assert (Hex : Exists (λ part, Py.parse_int part = None) (Py.split "." host))
        by (apply Exists_exists; eauto).
      apply valid_ipv4_raises in Hex as (part & _ & _ & Hraise). congruence. }
    split; [assumption|].
    destruct (in_or_out_of_range 0 255 _ Hparse) as [Hin|Hout]; [|assumption].
    apply valid_ipv4_true in Hin. congruence.
  - intros [Hparse Hout].
    destruct (valid_ipv4_host_address host) as [[|]|e] eqn:Hv; [|reflexivity|].
    + apply valid_ipv4_true in Hv. by apply out_of_range_not_in_range in Hout.
    + apply valid_ipv4_Raise in Hv
        as (before & part & after & Hsplit & _ & Hnone & _).
      rewrite Forall_forall in Hparse. destruct (Hparse part) as [n Hn].
      * rewrite Hsplit. apply elem_of_app. right. apply list_elem_of_here.
      * congruence.
Qed.

(** C2 (as amended): [valid_ipv4_host_address(host)] looks at the
    dot-separated parts of [host], however many there are. It returns
    true exactly when every part reads as a base-10 integer in
    [0, 255]; it returns false exactly when every part reads as an
    integer and some part is outside [0, 255]; and it raises exactly
    when some part is no integer literal, with the [ValueError] of [int]
    for the first such part. So ["999.1.1.1"] gives false, and
    ["1.2.3"], three parts in range, gives true. *)
Theorem valid_ipv4_host_address_checks_each_part :
  (∀ host,
     valid_ipv4_host_address host = Ok true
     ↔ Forall (part_in_range 0 255) (Py.split "." host)) ∧
  (∀ host,
     valid_ipv4_host_address host = Ok false
     ↔ Forall (λ part, is_Some (Py.parse_int part)) (Py.split "." host) ∧
       Exists (part_out_of_range 0 255) (Py.split "." host)) ∧
  (∀ host e,
     valid_ipv4_host_address host = Raise e
     ↔ ∃ before part after,
         Py.split "." host = (before ++ part :: after)%list ∧
         Forall (λ p, is_Some (Py.parse_int p)) before ∧
         Py.parse_int part = None ∧
         e = ValueError (Py.invalid_literal part)) ∧
  valid_ipv4_host_address "192.168.1.1" = Ok true ∧
  valid_ipv4_host_address "999.1.1.1" = Ok false ∧
  valid_ipv4_host_address "256.1.1.1" = Ok false ∧
  valid_ipv4_host_address "1.2.3" = Ok true ∧
  valid_ipv4_host_address "1.x.3.4"
  = Raise (ValueError "invalid literal for int() with base 10: 'x'").
Proof.
  split; [exact valid_ipv4_true|].
  split; [exact valid_ipv4_false|].
  split; [exact valid_ipv4_Raise|].
  repeat split; reflexivity.
Qed.

(** C2, counterexample to the claim as stated: ["1.2.3"] has three
    parts, so it is no IPv4 literal in the specification's sense, yet
    the function returns true for it. *)
Lemma valid_ipv4_host_address_three_parts :
  valid_ipv4_host_address "1.2.3" = Ok true ∧ ¬ spec_ipv4_literal "1.2.3".
Proof.
  split; [reflexivity|].
  intros [Hlen _]. vm_compute in Hlen. discriminate.
Qed.

(** ** The password check *)

Lemma split_max_nonempty sep s n : Py.split_max sep s n ≠ [].
Proof.
  destruct s as [|c s], n as [|n]; simpl; try done.
  case_decide; [done|].
  unfold Py.push_char. by destruct (Py.split_max sep s (S n)).
Qed.

Lemma length_push_char c pieces :
  pieces ≠ [] → length (Py.push_char c pieces) = length pieces.
Proof. destruct pieces; [congruence | reflexivity]. Qed.

(** One split at most: two pieces when the separator occurs, one
    otherwise. *)
Lemma length_split_max_1 sep s :
  length (Py.split_max sep s 1) = if decide (sep ∈ chars s) then 2%nat else 1%nat.
Proof.
  induction s as [|c s IH].
  - destruct (decide (sep ∈ chars "")) as [Hin|Hnin]; [|reflexivity].
    by apply elem_of_nil in Hin.
  - change (Py.split_max sep (String c s) 1) with
      (if decide (c = sep) then "" :: Py.split_max sep s 0
       else Py.push_char c (Py.split_max sep s 1)).
    unfold chars in *. simpl list_ascii_of_string.
    destruct (decide (c = sep)) as [->|Hne].
    + rewrite decide_True by apply list_elem_of_here. by destruct s.
    + rewrite length_push_char by apply split_max_nonempty.
      rewrite IH. destruct (decide (sep ∈ list_ascii_of_string s)) as [Hin|Hnin].
      * rewrite decide_True by (by apply list_elem_of_further). reflexivity.
      * rewrite decide_False; [reflexivity|].
        intros [?|?]%elem_of_cons; congruence.
Qed.

Lemma split_max_0 sep s : Py.split_max sep s 0 = [s].
Proof. by destruct s. Qed.

(** With a separator present, the two pieces are the text before the
    first separator and all the text after it. *)
Lemma split_max_first sep before after :
  sep ∉ chars before →
  Py.split_max sep (before +:+ String sep after) 1 = [before; after].
Proof.
  unfold chars. induction before as [|c before IH]; intros Hnin.
  - change ("" +:+ String sep after) with (String sep after).
    simpl. rewrite decide_True by reflexivity. by rewrite split_max_0.
  - change (String c before +:+ String sep after)
      with (String c (before +:+ String sep after)).
    simpl in Hnin. apply not_elem_of_cons in Hnin as [Hne Hnin].
    change (Py.split_max sep (String c (before +:+ String sep after)) 1)
      with (if decide (c = sep)
            then "" :: Py.split_max sep (before +:+ String sep after) 0
            else Py.push_char c
                   (Py.split_max sep (before +:+ String sep after) 1)).
    rewrite decide_False by congruence. by rewrite IH.
Qed.

Lemma check_password_cases uri :
  (has_credentials_separator uri ∧
   check_password uri = Raise (PasswordForbidden uri)) ∨
  (¬ has_credentials_separator uri ∧ check_password uri = Ok tt).
Proof.
  unfold check_password, has_credentials_separator.
  destruct (userinfo uri) as [s|] eqn:Hu.
  - assert (Hlen := length_split_max_1 ":" s).
    destruct (decide (":"%char ∈ chars s)) as [Hin|Hnin].
    + left. split; [eauto|].
      destruct s as [|c s]; [by apply elem_of_nil in Hin|].
      rewrite Hlen. reflexivity.
    + right. split; [intros (s' & [= <-] & ?); contradiction|].
      destruct s as [|c s]; [reflexivity|].
      rewrite Hlen. reflexivity.
  - right. split; [intros (s' & ? & _); discriminate | reflexivity].
Qed.

(** ** Required components *)

Lemma comprehension_if_Raise {A} (cond : A → result bool) l e :
  comprehension_if cond l = Raise e → ∃ x, x ∈ l ∧ cond x = Raise e.
Proof.
  induction l as [|x l IH]; simpl; [discriminate|].
  unfold mbind, result_bind. destruct (cond x) as [b|e'] eqn:Hx.
  - destruct (comprehension_if cond l) as [ys|e'']; [discriminate|].
    intros [= ->]. destruct IH as (y & ? & ?); [reflexivity|].
    exists y. split; [by apply list_elem_of_further | assumption].
  - intros [= ->]. exists x. split; [apply list_elem_of_here | assumption].
Qed.

Lemma comprehension_if_Ok {A} (cond : A → result bool) (f : A → bool) l :
  Forall (λ x, cond x = Ok (f x)) l →
  comprehension_if cond l = Ok (filter (λ x, f x = true) l).
Proof.
  induction 1 as [|x l Hx _ IH]; simpl; [reflexivity|].
  unfold mbind, result_bind. rewrite Hx, IH, filter_cons.
  destruct (f x); by rewrite ?decide_True, ?decide_False by done.
Qed.

Lemma getattr_raises uri name e :
  getattr uri name = Raise e → e = AttributeError name.
Proof.
  unfold getattr. repeat case_decide; congruence.
Qed.

(** What the required-components check can end in. *)
Lemma ensure_required_components_exist_outcome uri required :
  ensure_required_components_exist uri required = Ok tt ∨
  (∃ missing, missing ≠ [] ∧
     ensure_required_components_exist uri required
     = Raise (MissingComponentError uri missing)) ∨
  (∃ name,
     ensure_required_components_exist uri required = Raise (AttributeError name)).
Proof.
  unfold ensure_required_components_exist.
  set (cond := λ component : string, _).
  unfold mbind, result_bind.
  destruct (comprehension_if cond required) as [missing|e] eqn:Hc.
  - destruct (Py.sorted missing) as [|m ms] eqn:Hs; [by left|].
    right; left. exists (m :: ms). split; [discriminate | reflexivity].
  - right; right. apply comprehension_if_Raise in Hc as (x & _ & Hx).
    unfold cond, mbind, result_bind in Hx.
    destruct (getattr uri x) as [v|e'] eqn:Hg; [discriminate|].
    apply getattr_raises in Hg. exists x. congruence.
Qed.

(** ** [validate], step by step *)

Lemma validate_unfold uri self :
  validate uri self =
  (self,
   _ ← (if allow_password self then Ok tt else check_password uri);
   match required_components self with
   | [] => Ok tt
   | _ :: _ => ensure_required_components_exist uri (required_components self)
   end).
Proof.
  unfold validate, required_components, bind, gets, lift, ret,
    mbind, result_bind.
  simpl. destruct (allow_password self); simpl.
  - by destruct (fst <$> filter _ _).
  - destruct (check_password uri) as [[]|e]; [|reflexivity].
    by destruct (fst <$> filter _ _).
Qed.

Lemma validate_keeps_self uri self : (validate uri self).1 = self.
Proof. by rewrite validate_unfold. Qed.

Lemma validate_PasswordForbidden uri self :
  (validate uri self).2 = Raise (PasswordForbidden uri)
  ↔ allow_password self = false ∧ has_credentials_separator uri.
Proof.
  rewrite validate_unfold. simpl. unfold mbind, result_bind.
  assert (Hstep : ∀ required : list string,
    match required with
    | [] => Ok tt
    | _ :: _ => ensure_required_components_exist uri (required_components self)
    end ≠ Raise (PasswordForbidden uri)).
  { intros [|c cs]; [done|].
    destruct (ensure_required_components_exist_outcome
                uri (required_components self))
      as [-> | [(m & _ & ->) | (n & ->)]]; done. }
  destruct (allow_password self).
  - split; [intros Hv; by apply Hstep in Hv | intros [? _]; discriminate].
  - destruct (check_password_cases uri) as [[Hsep ->] | [Hnsep ->]].
    + split; [by intros _ | reflexivity].
    + split; [intros Hv; by apply Hstep in Hv | intros [_ ?]; contradiction].
Qed.

(** C3 (as amended): on a validator that forbids passwords, [validate]
    fails with [PasswordForbidden] exactly when the userinfo is present
    and contains a [:], whatever follows the first [:]; ["user"] passes
    and ["user:pass"] fails. *)
Theorem validate_forbids_credentials_separator :
  (∀ self uri,
     allow_password self = false →
     (validate uri self).2 = Raise (PasswordForbidden uri)
     ↔ has_credentials_separator uri) ∧
  validate (uri_with_userinfo "user") forbidding_password
    = (forbidding_password, Ok tt) ∧
  validate (uri_with_userinfo "user:pass") forbidding_password
    = (forbidding_password,
       Raise (PasswordForbidden (uri_with_userinfo "user:pass"))).
Proof.
  split; [|split; vm_compute; reflexivity].
  intros self uri Hallow. rewrite validate_PasswordForbidden. tauto.
Qed.

Lemma validate_forbids_credentials_separator_witness :
  allow_password forbidding_password = false ∧
  ((validate (uri_with_userinfo "user:pass") forbidding_password).2
     = Raise (PasswordForbidden (uri_with_userinfo "user:pass"))
   ↔ has_credentials_separator (uri_with_userinfo "user:pass")).
Proof.
  split; [reflexivity|].
  apply (proj1 validate_forbids_credentials_separator
           forbidding_password (uri_with_userinfo "user:pass")).
  reflexivity.
Defined.

(** C3, counterexample to the claim as stated: the userinfo ["user:"]
    has nothing after its [:], yet a validator that forbids passwords
    rejects it with [PasswordForbidden]. *)
Lemma validate_rejects_empty_password :
  allow_password forbidding_password = false ∧
  (validate (uri_with_userinfo "user:") forbidding_password).2
    = Raise (PasswordForbidden (uri_with_userinfo "user:")) ∧
  ¬ spec_password_present (uri_with_userinfo "user:").
Proof.
  split; [reflexivity|]. split; [vm_compute; reflexivity|].
  intros (user & password & Hu & Hcolon & Hpw). simpl in Hu.
  injection Hu as Hu.
  assert (Hsplit := split_max_first ":" user password Hcolon).
  rewrite <- Hu in Hsplit. vm_compute in Hsplit. congruence.
Qed.

(** ** Purity of [validate] *)

(** C8: [validate] leaves every attribute of the validator as it found
    it, and a second call on the same validator and URI ends as the
    first did: the same return, or the same exception with the same
    arguments. *)
Theorem validate_is_pure (uri : URIReference) (self : Validator.t) :
  (validate uri self).1 = self ∧
  allowed_schemes (validate uri self).1 = allowed_schemes self ∧
  allowed_hosts (validate uri self).1 = allowed_hosts self ∧
  allowed_ports (validate uri self).1 = allowed_ports self ∧
  allow_password (validate uri self).1 = allow_password self ∧
  require_presence_of (validate uri self).1 = require_presence_of self ∧
  (validate uri (validate uri self).1).2 = (validate uri self).2.
Proof.
  rewrite validate_keeps_self. repeat split; reflexivity.
Qed.

(** ** Missing components *)

Lemma elem_of_COMPONENT_NAMES c :
  c ∈ COMPONENT_NAMES ↔
  c = "scheme" ∨ c = "userinfo" ∨ c = "host" ∨ c = "port" ∨
  c = "path" ∨ c = "query" ∨ c = "fragment".
Proof.
  unfold COMPONENT_NAMES. rewrite !elem_of_union, !elem_of_singleton. tauto.
Qed.

Lemma getattr_component uri c :
  c ∈ COMPONENT_NAMES → ∃ v, getattr uri c = Ok v.
Proof.
  rewrite elem_of_COMPONENT_NAMES.
  intros [->|[->|[->|[->|[->|[->| ->]]]]]]; eexists; reflexivity.
Qed.

Lemma elem_of_required_components self c :
  c ∈ required_components self ↔ require_presence_of self !! c = Some true.
Proof.
  unfold required_components. rewrite list_elem_of_fmap. split.
  - intros ([k b] & -> & [Hb Hin]%list_elem_of_filter). simpl in *. subst b.
    by apply elem_of_map_to_list.
  - intros Hc. exists (c, true). split; [reflexivity|].
    apply list_elem_of_filter. split; [reflexivity|].
    by apply elem_of_map_to_list.
Qed.

Lemma NoDup_required_components self : NoDup (required_components self).
Proof.
  unfold required_components.
  eapply sublist_NoDup; [apply (NoDup_fst_map_to_list (require_presence_of self))|].
  apply fmap_sublist, sublist_filter.
Qed.

Lemma required_components_named self c :
  keys_ok self → c ∈ required_components self → c ∈ COMPONENT_NAMES.
Proof.
  unfold keys_ok. intros <- Hc%elem_of_required_components.
  by eapply elem_of_dom_2.
Qed.

(** With the seven names as keys, no attribute lookup fails and the
    comprehension is a plain filter. *)
Lemma missing_components_filter self uri :
  keys_ok self →
  comprehension_if
    (λ component, v ← getattr uri component; Ok (bool_decide (v = None)))
    (required_components self)
  = Ok (filter (λ c, is_None uri c = true) (required_components self)).
Proof.
  intros Hkeys. apply comprehension_if_Ok, Forall_forall.
  intros c Hc. unfold is_None, mbind, result_bind.
  destruct (getattr_component uri c) as [v ->];
    [by eapply required_components_named|].
  by destruct v.
Qed.

Lemma is_None_true uri c : is_None uri c = true ↔ getattr uri c = Ok None.
Proof.
  unfold is_None. destruct (getattr uri c) as [[v|]|e]; split; congruence.
Qed.

Lemma elem_of_sorted c l : c ∈ Py.sorted l ↔ c ∈ l.
Proof. unfold Py.sorted. by rewrite merge_sort_Permutation. Qed.

Lemma validate_missing self uri :
  keys_ok self →
  allow_password self = true ∨ ¬ has_credentials_separator uri →
  (∃ c, missing_component self uri c) →
  ∃ missing,
    validate uri self = (self, Raise (MissingComponentError uri missing)) ∧
    (∀ c, c ∈ missing ↔ missing_component self uri c) ∧
    StronglySorted String.le missing ∧
    NoDup missing.
Proof.
  intros Hkeys Hpw [c0 Hc0].
  set (found := filter (λ c, is_None uri c = true) (required_components self)).
  assert (Hfound : ∀ c, c ∈ Py.sorted found ↔ missing_component self uri c).
  { intros c. unfold found, missing_component.
    by rewrite elem_of_sorted, list_elem_of_filter, is_None_true,
      elem_of_required_components, (comm and). }
  exists (Py.sorted found). split; [|split; [exact Hfound|split]].
  - rewrite validate_unfold. f_equal.
    assert (Hcheck : (if allow_password self then Ok tt else check_password uri)
                     = Ok tt).
    { destruct (allow_password self); [reflexivity|].
      destruct Hpw as [?|Hnsep]; [discriminate|].
      by destruct (check_password_cases uri) as [[? _]|[_ ->]]. }
    assert (Hens : ensure_required_components_exist uri (required_components self)
                   = Raise (MissingComponentError uri (Py.sorted found))).
    { unfold ensure_required_components_exist.
      rewrite (missing_components_filter self uri Hkeys). fold found.
      unfold mbind, result_bind.
      destruct (Py.sorted found) as [|m ms] eqn:Hs; [|reflexivity].
      apply Hfound in Hc0. by apply elem_of_nil in Hc0. }
    rewrite Hcheck. unfold mbind, result_bind.
    destruct Hc0 as [Hc0 _]. apply elem_of_required_components in Hc0.
    destruct (required_components self) as [|r rs]; [|exact Hens].
    by apply elem_of_nil in Hc0.
  - unfold Py.sorted. apply StronglySorted_merge_sort; apply _.
  - unfold Py.sorted. rewrite merge_sort_Permutation.
    apply NoDup_filter, NoDup_required_components.
Qed.

(** ** Configuration: [require_components] *)

Lemma check_names_valid components self :
  Forall (λ c, c ∈ COMPONENT_NAMES) components →
  check_names components self = (self, Ok tt).
Proof.
  unfold check_names. induction 1 as [|c cs Hc _ IH]; [reflexivity|].
  simpl. unfold bind at 1. rewrite decide_True by done. exact IH.
Qed.

Lemma check_names_invalid valid bad rest self :
  Forall (λ c, c ∈ COMPONENT_NAMES) valid →
  bad ∉ COMPONENT_NAMES →
  check_names (valid ++ bad :: rest) self
  = (self, Raise (ValueError (not_a_valid_component bad))).
Proof.
  unfold check_names. intros Hvalid Hbad.
  induction Hvalid as [|c cs Hc _ IH]; simpl; unfold bind at 1.
  - by rewrite decide_False.
  - rewrite decide_True by done. exact IH.
Qed.

(** The first element of a list with a decidable property. *)
Lemma Exists_first {A} (P : A → Prop) `{∀ x, Decision (P x)} l :
  Exists P l → ∃ l1 x l2, l = (l1 ++ x :: l2)%list ∧ Forall (λ y, ¬ P y) l1 ∧ P x.
Proof.
  induction l as [|y l IH]; intros Hex; [by inversion Hex|].
  destruct (decide (P y)) as [Hy|Hy].
  - exists [], y, l. by repeat split.
  - inversion Hex as [|? ? Hl]; subst; [contradiction|].
    destruct (IH Hl) as (l1 & x & l2 & -> & Hl1 & Hx).
    exists (y :: l1), x, l2. repeat split; [|assumption]. by constructor.
Qed.

Lemma require_components_unfold components self :
  require_components components self =
  match check_names (Py.lower <$> components) self with
  | (self', Ok _) =>
      (update_require_presence_of
         (list_to_map ((λ component, (component, true)) <$> (Py.lower <$> components)))
         self', Ok tt)
  | (self', Raise e) => (self', Raise e)
  end.
Proof. reflexivity. Qed.

Lemma require_components_valid components self :
  Forall (λ c, Py.lower c ∈ COMPONENT_NAMES) components →
  require_components components self =
  (update_require_presence_of
     (list_to_map ((λ component, (component, true)) <$> (Py.lower <$> components)))
     self, Ok tt).
Proof.
  intros Hall. rewrite require_components_unfold, check_names_valid; [done|].
  by apply Forall_fmap.
Qed.

Lemma require_components_invalid components self :
  Exists (λ c, Py.lower c ∉ COMPONENT_NAMES) components →
  ∃ bad, bad ∈ components ∧ (Py.lower bad ∉ COMPONENT_NAMES) ∧
    require_components components self
    = (self, Raise (ValueError (not_a_valid_component (Py.lower bad)))).
Proof.
  intros (valid & bad & rest & -> & Hvalid & Hbad)%Exists_first; [|apply _].
  exists bad. split; [|split; [assumption|]].
  - apply elem_of_app. right. apply list_elem_of_here.
  - rewrite require_components_unfold, fmap_app, fmap_cons.
    rewrite check_names_invalid; [reflexivity| |assumption].
    apply Forall_fmap. eapply Forall_impl; [exact Hvalid|].
    intros c Hc. simpl. by destruct (decide (Py.lower c ∈ COMPONENT_NAMES)).
Qed.

(** The dict built from the names maps exactly them, to [True]. *)
Lemma lookup_flags (names : list string) k :
  (list_to_map ((λ component, (component, true)) <$> names) : gmap string bool) !! k
  = if decide (k ∈ names) then Some true else None.
Proof.
  induction names as [|n names IH].
  - rewrite fmap_nil, list_to_map_nil, lookup_empty.
    by destruct (decide (k ∈ [])) as [?%elem_of_nil|].
  - rewrite fmap_cons, list_to_map_cons, lookup_insert.
    destruct (decide (n = k)) as [->|Hne].
    + by rewrite decide_True by apply list_elem_of_here.
    + rewrite IH. destruct (decide (k ∈ names)) as [Hin|Hnin].
      * by rewrite decide_True by (by apply list_elem_of_further).
      * rewrite decide_False; [done|].
        intros [?|?]%elem_of_cons; congruence.
Qed.

(** C7: [require_components] lower-cases the names first. When every
    lower-cased name is one of the seven component names, the call
    returns, the flag of each given name is then true, the flags of all
    other names and the other attributes are as before. When some
    lower-cased name is not, the call itself raises [ValueError] for
    such a name: the error comes at configuration time, not from a
    later [validate]. *)
Theorem require_components_checks_names (components : list string)
    (self : Validator.t) :
  (Forall (λ c, Py.lower c ∈ COMPONENT_NAMES) components →
   ∃ self',
     require_components components self = (self', Ok tt) ∧
     (∀ c, c ∈ components →
        require_presence_of self' !! Py.lower c = Some true) ∧
     (∀ k, k ∉ Py.lower <$> components →
        require_presence_of self' !! k = require_presence_of self !! k) ∧
     allowed_schemes self' = allowed_schemes self ∧
     allowed_hosts self' = allowed_hosts self ∧
     allowed_ports self' = allowed_ports self ∧
     allow_password self' = allow_password self) ∧
  (Exists (λ c, Py.lower c ∉ COMPONENT_NAMES) components →
   ∃ bad, bad ∈ components ∧ (Py.lower bad ∉ COMPONENT_NAMES) ∧
     (require_components components self).2
     = Raise (ValueError (not_a_valid_component (Py.lower bad)))).
Proof.
  split.
  - intros Hall. eexists. split; [by apply require_components_valid|].
    simpl. repeat split.
    + intros c Hc. rewrite lookup_union_l'; rewrite lookup_flags;
        by rewrite decide_True by (by apply list_elem_of_fmap_2).
    + intros k Hk. rewrite lookup_union_r; [done|].
      by rewrite lookup_flags, decide_False.
  - intros (bad & Hin & Hbad & Heq)%(require_components_invalid _ self).
    exists bad. by rewrite Heq.
Qed.

Lemma require_components_checks_names_witness :
  (Forall (λ c, Py.lower c ∈ COMPONENT_NAMES) ["scheme"; "Host"; "path"] ∧
   ∃ self',
     require_components ["scheme"; "Host"; "path"] init = (self', Ok tt) ∧
     require_presence_of self' !! "host" = Some true) ∧
  (Exists (λ c, Py.lower c ∉ COMPONENT_NAMES) ["scheme"; "Host"; "pat"] ∧
   ∃ bad, bad ∈ ["scheme"; "Host"; "pat"] ∧ (Py.lower bad ∉ COMPONENT_NAMES) ∧
     (require_components ["scheme"; "Host"; "pat"] init).2
     = Raise (ValueError (not_a_valid_component (Py.lower bad)))).
Proof.
  assert (Hall : Forall (λ c, Py.lower c ∈ COMPONENT_NAMES)
                        ["scheme"; "Host"; "path"]).
  { repeat constructor; apply elem_of_COMPONENT_NAMES; vm_compute; tauto. }
  assert (Hex : Exists (λ c, Py.lower c ∉ COMPONENT_NAMES)
                       ["scheme"; "Host"; "pat"]).
  { do 2 apply Exists_cons_tl. apply Exists_cons_hd. vm_compute. intros H.
    discriminate H. }
  split; (split; [assumption|]).
  - destruct (proj1 (require_components_checks_names
                       ["scheme"; "Host"; "path"] init) Hall)
      as (self' & Hcall & Hset & _).
    exists self'. split; [exact Hcall|].
    apply (Hset "Host"). do 1 apply list_elem_of_further. apply list_elem_of_here.
  - exact (proj2 (require_components_checks_names
                    ["scheme"; "Host"; "pat"] init) Hex).
Defined.

(** C9: a [require_components] call that fails because of an invalid
    name leaves the validator, and so its [require_presence_of] mapping,
    exactly as it was; the flags of valid names listed before the
    invalid one are not set. *)
Theorem require_components_failure_keeps_flags (components : list string)
    (self : Validator.t) :
  Exists (λ c, Py.lower c ∉ COMPONENT_NAMES) components →
  (∃ e, (require_components components self).2 = Raise e) ∧
  (require_components components self).1 = self ∧
  require_presence_of (require_components components self).1
  = require_presence_of self.
Proof.
  intros (bad & _ & _ & ->)%(require_components_invalid _ self).
  simpl. eauto.
Qed.

Lemma require_components_failure_keeps_flags_witness :
  Exists (λ c, Py.lower c ∉ COMPONENT_NAMES) ["scheme"; "Host"; "pat"] ∧
  require_presence_of (require_components ["scheme"; "Host"; "pat"] init).1 !! "scheme"
  = Some false.
Proof.
  assert (Hex : Exists (λ c, Py.lower c ∉ COMPONENT_NAMES)
                       ["scheme"; "Host"; "pat"]).
  { do 2 apply Exists_cons_tl. apply Exists_cons_hd. vm_compute. intros H.
    discriminate H. }
  split; [exact Hex|].
  destruct (require_components_failure_keeps_flags
              ["scheme"; "Host"; "pat"] init Hex) as (_ & _ & ->).
  reflexivity.
Defined.

(** ** The keys of [require_presence_of] *)

Lemma keys_ok_init : keys_ok init.
Proof. unfold keys_ok. vm_compute. reflexivity. Qed.

Lemma keys_ok_require_components components self :
  keys_ok self → keys_ok (require_components components self).1.
Proof.
  intros Hkeys.
  destruct (decide (Forall (λ c, Py.lower c ∈ COMPONENT_NAMES) components))
    as [Hall|Hex].
  - rewrite require_components_valid by assumption.
    unfold keys_ok in *. simpl.
    rewrite dom_union_L, dom_list_to_map_L, Hkeys.
    apply set_eq. intros k. rewrite elem_of_union, elem_of_list_to_set.
    split; [|tauto]. intros [Hk|Hk]; [|assumption].
    apply list_elem_of_fmap in Hk as ([k' b] & Hkk & Hk).
    apply list_elem_of_fmap in Hk as (name & Hpair & Hname).
    apply list_elem_of_fmap in Hname as (c & Hlow & Hc).
    simplify_eq/=. rewrite Forall_forall in Hall. by apply Hall.
  - apply not_Forall_Exists in Hex; [|apply _].
    by destruct (require_components_invalid _ self Hex) as (bad & _ & _ & ->).
Qed.

Lemma for_each_keys {A} (body : A → method unit) l self :
  (∀ x s, require_presence_of (body x s).1 = require_presence_of s) →
  require_presence_of (for_each l body self).1 = require_presence_of self.
Proof.
  intros Hbody. revert self. induction l as [|x l IH]; intros self; [done|].
  simpl. unfold bind. specialize (Hbody x self).
  destruct (body x self) as [self' [[]|e]]; simpl in *; [|done].
  by rewrite IH.
Qed.

Lemma keys_ok_allow_ports ports self :
  keys_ok self → keys_ok (allow_ports ports self).1.
Proof.
  unfold keys_ok, allow_ports. intros Hkeys. rewrite for_each_keys; [done|].
  intros port s. unfold bind, lift. destruct (Py.int port) as [n|e]; [|done].
  by destruct (_ && _).
Qed.

Lemma keys_ok_allow_schemes `{Normalizers} schemes self :
  keys_ok self → keys_ok (allow_schemes schemes self).1.
Proof.
  unfold keys_ok, allow_schemes. intros Hkeys. by rewrite for_each_keys.
Qed.

Lemma keys_ok_allow_hosts `{Normalizers} hosts self :
  keys_ok self → keys_ok (allow_hosts hosts self).1.
Proof.
  unfold keys_ok, allow_hosts. intros Hkeys. by rewrite for_each_keys.
Qed.

Lemma keys_ok_password self :
  keys_ok self →
  keys_ok (allow_use_of_password self).1 ∧
  keys_ok (forbid_use_of_password self).1.
Proof. by split. Qed.

(** C4 (as amended): when the password check does not fail first (the
    validator allows passwords, or the userinfo has no [:]) and at least
    one required component is absent from the URI, [validate] fails with
    one [MissingComponentError] that carries every missing name, each
    once, in ascending order; requiring scheme, host and path on a URI
    with only a scheme gives exactly [host; path]. *)
Theorem validate_reports_all_missing_components :
  (∀ self uri,
     keys_ok self →
     allow_password self = true ∨ ¬ has_credentials_separator uri →
     (∃ c, missing_component self uri c) →
     ∃ missing,
       validate uri self = (self, Raise (MissingComponentError uri missing)) ∧
       (∀ c, c ∈ missing ↔ missing_component self uri c) ∧
       StronglySorted String.le missing ∧
       NoDup missing) ∧
  validate uri_only_scheme requiring_scheme_host_path
  = (requiring_scheme_host_path,
     Raise (MissingComponentError uri_only_scheme ["host"; "path"])).
Proof.
  split; [exact validate_missing|]. vm_compute. reflexivity.
Qed.

Lemma validate_reports_all_missing_components_witness :
  keys_ok requiring_scheme_host_path ∧
  (allow_password requiring_scheme_host_path = true ∨
   ¬ has_credentials_separator uri_only_scheme) ∧
  (∃ c, missing_component requiring_scheme_host_path uri_only_scheme c) ∧
  ∃ missing,
    validate uri_only_scheme requiring_scheme_host_path
    = (requiring_scheme_host_path,
       Raise (MissingComponentError uri_only_scheme missing)) ∧
    (∀ c, c ∈ missing
          ↔ missing_component requiring_scheme_host_path uri_only_scheme c) ∧
    StronglySorted String.le missing ∧
    NoDup missing.
Proof.
  assert (Hkeys : keys_ok requiring_scheme_host_path)
    by apply keys_ok_require_components, keys_ok_init.
  assert (Hpw : allow_password requiring_scheme_host_path = true ∨
                ¬ has_credentials_separator uri_only_scheme)
    by (left; reflexivity).
  assert (Hmiss : ∃ c, missing_component requiring_scheme_host_path
                         uri_only_scheme c)
    by (exists "host"; split; vm_compute; reflexivity).
  repeat (split; [assumption|]).
  exact (proj1 validate_reports_all_missing_components
           requiring_scheme_host_path uri_only_scheme Hkeys Hpw Hmiss).
Defined.

(** C4, counterexample to the claim as stated: a validator that forbids
    passwords and requires a query, on a URI with userinfo ["user:pass"]
    and no query. A required component is missing, yet [validate] fails
    with [PasswordForbidden], the check that runs first, and not with
    [MissingComponentError]. *)
Lemma validate_password_check_comes_first :
  keys_ok forbidding_password_requiring_query ∧
  missing_component forbidding_password_requiring_query
    (uri_with_userinfo "user:pass") "query" ∧
  (validate (uri_with_userinfo "user:pass")
     forbidding_password_requiring_query).2
  = Raise (PasswordForbidden (uri_with_userinfo "user:pass")) ∧
  ∀ missing,
    (validate (uri_with_userinfo "user:pass")
       forbidding_password_requiring_query).2
    ≠ Raise (MissingComponentError (uri_with_userinfo "user:pass") missing).
Proof.
  split.
  { apply keys_ok_require_components.
    by apply (keys_ok_password init), keys_ok_init. }
  split; [split; vm_compute; reflexivity|].
  assert (Hv : (validate (uri_with_userinfo "user:pass")
                  forbidding_password_requiring_query).2
               = Raise (PasswordForbidden (uri_with_userinfo "user:pass")))
    by (vm_compute; reflexivity).
  split; [exact Hv|]. intros missing. rewrite Hv. discriminate.
Qed.

(** ** Configuration: [allow_ports] *)

(** One turn of the loop. *)
Lemma allow_ports_cons port ports self :
  allow_ports (port :: ports) self =
  match Py.parse_int port with
  | Some n =>
      allow_ports ports
        (if decide (port_in_range n) then add_allowed_port n self else self)
  | None => (self, Raise (ValueError (Py.invalid_literal port)))
  end.
Proof.
  unfold allow_ports. simpl. unfold bind, lift, Py.int.
  destruct (Py.parse_int port) as [n|]; [|reflexivity].
  unfold port_in_range.
  destruct (decide (0 ≤ n ≤ 65535)) as [Hn|Hn].
  - assert (((0 <=? n) && (n <=? 65535)) = true) as -> by lia. reflexivity.
  - assert (((0 <=? n) && (n <=? 65535)) = false) as -> by lia. reflexivity.
Qed.

Lemma allow_ports_parsed ports ns self :
  Forall2 (λ port n, Py.parse_int port = Some n) ports ns →
  ∃ self',
    allow_ports ports self = (self', Ok tt) ∧
    allowed_ports self' = list_to_set (filter port_in_range ns) ∪ allowed_ports self ∧
    allowed_schemes self' = allowed_schemes self ∧
    allowed_hosts self' = allowed_hosts self ∧
    allow_password self' = allow_password self ∧
    require_presence_of self' = require_presence_of self.
Proof.
  intros Hparse. revert self.
  induction Hparse as [|port n ports ns Hport _ IH]; intros self.
  - exists self. repeat split.
    by rewrite filter_nil, list_to_set_nil, (left_id_L ∅ (∪)).
  - rewrite allow_ports_cons, Hport, filter_cons.
    destruct (decide (port_in_range n)) as [Hn|Hn].
    + destruct (IH (add_allowed_port n self))
        as (self' & -> & Hports & Hs & Hh & Hpw & Hreq).
      exists self'. repeat split; try assumption.
      rewrite Hports, list_to_set_cons. simpl.
      by rewrite (assoc_L (∪)), (comm_L (∪) _ {[n]}).
    + destruct (IH self) as (self' & -> & Hports & Hs & Hh & Hpw & Hreq).
      exists self'. by repeat split.
Qed.

Lemma allow_ports_unparsable ports self :
  Exists (λ port, Py.parse_int port = None) ports →
  ∃ bad, bad ∈ ports ∧ Py.parse_int bad = None ∧
    (allow_ports ports self).2 = Raise (ValueError (Py.invalid_literal bad)).
Proof.
  revert self. induction ports as [|port ports IH]; intros self Hex;
    [by inversion Hex|].
  rewrite allow_ports_cons.
  destruct (Py.parse_int port) as [n|] eqn:Hport.
  - inversion Hex as [? ? Hhd|? ? Htl]; subst; [congruence|].
    destruct (IH (if decide (port_in_range n)
                  then add_allowed_port n self else self) Htl)
      as (bad & Hin & Hbad & Hraise).
    exists bad. split; [by apply list_elem_of_further | by split].
  - exists port. split; [apply list_elem_of_here | by split].
Qed.

Lemma allow_ports_returns ports self :
  (allow_ports ports self).2 = Ok tt
  ↔ Forall (λ port, is_Some (Py.parse_int port)) ports.
Proof.
  split.
  - intros Hok. apply Forall_forall. intros port Hin.
    destruct (Py.parse_int port) as [n|] eqn:Hport; [by eexists|].
    destruct (allow_ports_unparsable ports self) as (bad & _ & _ & Hraise).
    { apply Exists_exists. eauto. }
    congruence.
  - intros Hall.
    assert (∃ ns, Forall2 (λ port n, Py.parse_int port = Some n) ports ns)
      as [ns Hns].
    { induction Hall as [|port ports [n Hn] _ [ns IH]]; [by exists []|].
      exists (n :: ns). by constructor. }
    by destruct (allow_ports_parsed ports ns self Hns) as (self' & -> & _).
Qed.

(** C6: [allow_ports] reads each argument as a base-10 integer; with
    [ns] the integers read, the call returns without an error, the
    allowed ports are then the old ones and the [ns] within [0, 65535],
    the values outside the range being dropped, and no other attribute
    changes. After [Validator().allow_ports("80", "443", "99999")] the
    allowed ports are exactly 80 and 443. *)
Theorem allow_ports_drops_out_of_range :
  (∀ ports ns self,
     Forall2 (λ port n, Py.parse_int port = Some n) ports ns →
     ∃ self',
       allow_ports ports self = (self', Ok tt) ∧
       allowed_ports self'
       = list_to_set (filter port_in_range ns) ∪ allowed_ports self ∧
       allowed_schemes self' = allowed_schemes self ∧
       allowed_hosts self' = allowed_hosts self ∧
       allow_password self' = allow_password self ∧
       require_presence_of self' = require_presence_of self) ∧
  (allow_ports ["80"; "443"; "99999"] init).2 = Ok tt ∧
  allowed_ports (allow_ports ["80"; "443"; "99999"] init).1 = {[ 80; 443 ]}.
Proof.
  split; [exact allow_ports_parsed|]. split; vm_compute; reflexivity.
Qed.

Lemma allow_ports_drops_out_of_range_witness :
  Forall2 (λ port n, Py.parse_int port = Some n)
    ["80"; "443"; "99999"] [80; 443; 99999] ∧
  ∃ self',
    allow_ports ["80"; "443"; "99999"] init = (self', Ok tt) ∧
    allowed_ports self'
    = list_to_set (filter port_in_range [80; 443; 99999]) ∪ allowed_ports init.
Proof.
  assert (Hparse : Forall2 (λ port n, Py.parse_int port = Some n)
                     ["80"; "443"; "99999"] [80; 443; 99999])
    by (repeat constructor).
  split; [exact Hparse|].
  destruct (proj1 allow_ports_drops_out_of_range _ _ init Hparse)
    as (self' & Hcall & Hports & _).
  exists self'. by split.
Defined.

Lemma allow_ports_Raise ports self e :
  (allow_ports ports self).2 = Raise e ↔
  ∃ before bad after,
    ports = (before ++ bad :: after)%list ∧
    Forall (λ port, is_Some (Py.parse_int port)) before ∧
    Py.parse_int bad = None ∧
    e = ValueError (Py.invalid_literal bad).
Proof.
  revert self. induction ports as [|port ports IH]; intros self.
  - split; [discriminate|].
    intros (before & bad & after & Hl & _). by destruct before.
  - rewrite allow_ports_cons. destruct (Py.parse_int port) as [n|] eqn:Hport.
    + rewrite IH. split.
      * intros (before & bad & after & -> & Hbefore & Hbad & ->).
        exists (port :: before), bad, after.
        split; [reflexivity|]. split; [|by split].
        constructor; [by exists n | assumption].
      * intros ([|z before] & bad & after & Heq & Hbefore & Hbad & ->);
          simplify_eq/=.
        apply Forall_cons in Hbefore as [_ Hbefore].
        exists before, bad, after. by repeat split.
    + simpl. split.
      * intros [= <-]. exists [], port, ports. by repeat split.
      * intros ([|z before] & bad & after & Heq & Hbefore & Hbad & ->);
          simplify_eq/=; [reflexivity|].
        apply Forall_cons in Hbefore as [[m Hm] _]. congruence.
Qed.

(** C10: when some argument of [allow_ports] is no base-10 integer
    literal, such as ["http"] or the empty string, the call raises the
    [ValueError] of [int] for such an argument instead of dropping it.
    The call raises exactly then, with the error of the first such
    argument, and returns without an error exactly when every argument
    reads as an integer. A control character that is no white space,
    such as the separator 0x1c, makes the argument unreadable too. *)
Theorem allow_ports_raises_on_unparsable :
  (∀ ports self,
     Exists (λ port, Py.parse_int port = None) ports →
     ∃ bad, bad ∈ ports ∧ Py.parse_int bad = None ∧
       (allow_ports ports self).2 = Raise (ValueError (Py.invalid_literal bad))) ∧
  (∀ ports self,
     (allow_ports ports self).2 = Ok tt
     ↔ Forall (λ port, is_Some (Py.parse_int port)) ports) ∧
  (∀ ports self e,
     (allow_ports ports self).2 = Raise e
     ↔ ∃ before bad after,
         ports = (before ++ bad :: after)%list ∧
         Forall (λ port, is_Some (Py.parse_int port)) before ∧
         Py.parse_int bad = None ∧
         e = ValueError (Py.invalid_literal bad)) ∧
  Py.parse_int "http" = None ∧
  Py.parse_int "" = None ∧
  Py.parse_int (String "028" "80") = None ∧
  (allow_ports ["80"; "http"] init).2
  = Raise (ValueError "invalid literal for int() with base 10: 'http'") ∧
  (allow_ports [""] init).2
  = Raise (ValueError "invalid literal for int() with base 10: ''") ∧
  (allow_ports [String "028" "80"] init).2
  = Raise (ValueError "invalid literal for int() with base 10: '\x1c80'").
Proof.
  split; [exact allow_ports_unparsable|].
  split; [exact allow_ports_returns|].
  split; [exact allow_ports_Raise|].
  repeat split; vm_compute; reflexivity.
Qed.

Lemma allow_ports_raises_on_unparsable_witness :
  Exists (λ port, Py.parse_int port = None) ["80"; "http"] ∧
  ∃ bad, bad ∈ ["80"; "http"] ∧ Py.parse_int bad = None ∧
    (allow_ports ["80"; "http"] init).2
    = Raise (ValueError (Py.invalid_literal bad)).
Proof.
  assert (Hex : Exists (λ port, Py.parse_int port = None) ["80"; "http"])
    by (apply Exists_cons_tl, Exists_cons_hd; reflexivity).
  split; [exact Hex|].
  exact (proj1 allow_ports_raises_on_unparsable ["80"; "http"] init Hex).
Defined.

(** ** The authority check *)

(** C5: when the authority matches the subauthority expression and the
    host given matches the IPv4-shape expression, [authority_is_valid]
    returns what the byte-range check of the host returns, and not the
    (truthy) result of the grammar match; so for authority and host
    ["999.1.1.1"], both matched, the answer is false. *)
Theorem authority_is_valid_rechecks_ipv4 `{Misc} :
  (∀ authority host require,
     is_Some (re_match SUBAUTHORITY_MATCHER authority) →
     is_Some (re_match IPv4_MATCHER host) →
     truthy (is_valid (Some authority) SUBAUTHORITY_MATCHER require) = true ∧
     authority_is_valid (Some authority) (Some host) require
     = PyBool <$> valid_ipv4_host_address host) ∧
  (∀ require,
     is_Some (re_match SUBAUTHORITY_MATCHER "999.1.1.1") →
     is_Some (re_match IPv4_MATCHER "999.1.1.1") →
     authority_is_valid (Some "999.1.1.1") (Some "999.1.1.1") require
     = Ok (PyBool false)).
Proof.
  assert (Hgen : ∀ authority host require,
     is_Some (re_match SUBAUTHORITY_MATCHER authority) →
     is_Some (re_match IPv4_MATCHER host) →
     truthy (is_valid (Some authority) SUBAUTHORITY_MATCHER require) = true ∧
     authority_is_valid (Some authority) (Some host) require
     = PyBool <$> valid_ipv4_host_address host).
  { intros authority host require [ma Ha] [mh Hh].
    unfold authority_is_valid, is_valid. rewrite Ha, Hh.
    by destruct require. }
  split; [exact Hgen|].
  intros require Ha Hh. by destruct (Hgen _ _ require Ha Hh) as [_ ->].
Qed.

Lemma authority_is_valid_rechecks_ipv4_witness :
  is_Some (re_match (@SUBAUTHORITY_MATCHER dotted_decimal_misc) "999.1.1.1") ∧
  is_Some (re_match (@IPv4_MATCHER dotted_decimal_misc) "999.1.1.1") ∧
  @authority_is_valid dotted_decimal_misc
    (Some "999.1.1.1") (Some "999.1.1.1") false
  = Ok (PyBool false).
Proof.
  assert (Hm : is_Some (re_match dotted_decimal "999.1.1.1"))
    by (vm_compute; eauto).
  split; [exact Hm|]. split; [exact Hm|].
  exact (proj2 (@authority_is_valid_rechecks_ipv4 dotted_decimal_misc)
           false Hm Hm).
Defined.

(** ** The allow-lists *)

Lemma validate_outcome uri self :
  (validate uri self).2 = Ok tt ∨
  (validate uri self).2 = Raise (PasswordForbidden uri) ∨
  (∃ missing, (validate uri self).2 = Raise (MissingComponentError uri missing)) ∨
  (∃ name, (validate uri self).2 = Raise (AttributeError name)).
Proof.
  rewrite validate_unfold. simpl. unfold mbind, result_bind.
  assert (Hstep :
    match required_components self with
    | [] => Ok tt
    | _ :: _ => ensure_required_components_exist uri (required_components self)
    end = Ok tt ∨
    (∃ missing,
       match required_components self with
       | [] => Ok tt
       | _ :: _ => ensure_required_components_exist uri (required_components self)
       end = Raise (MissingComponentError uri missing)) ∨
    (∃ name,
       match required_components self with
       | [] => Ok tt
       | _ :: _ => ensure_required_components_exist uri (required_components self)
       end = Raise (AttributeError name))).
  { destruct (ensure_required_components_exist_outcome
                uri (required_components self))
      as [Hok | [(m & _ & Hm) | (n & Hn)]];
      destruct (required_components self); eauto. }
  destruct (allow_password self).
  - destruct Hstep as [?|[?|?]]; auto.
  - destruct (check_password_cases uri) as [[_ ->] | [_ ->]]; [auto|].
    destruct Hstep as [?|[?|?]]; auto.
Qed.

(** C1 (the code does not do this): [validate] never looks at
    [allowed_schemes], [allowed_hosts] or [allowed_ports]. Its outcome
    is the same whatever these sets hold, it never raises
    [UnpermittedComponentError], and the validator that allows only
    [http] and [https] accepts [imap://mail.google.com]. *)
Theorem validate_ignores_allow_lists :
  (∀ uri self schemes hosts ports,
     (validate uri
        (Validator.mk schemes hosts ports
           (allow_password self) (require_presence_of self))).2
     = (validate uri self).2) ∧
  (∀ uri self name value allowed,
     (validate uri self).2
     ≠ Raise (UnpermittedComponentError name value allowed)) ∧
  allowed_schemes allowing_http_https = {[ "http"; "https" ]} ∧
  scheme uri_imap = Some "imap" ∧
  ("imap" ∉ allowed_schemes allowing_http_https) ∧
  validate uri_imap allowing_http_https = (allowing_http_https, Ok tt).
Proof.
  split; [|split].
  - intros uri self schemes hosts ports. by rewrite !validate_unfold.
  - intros uri self name value allowed Hv.
    destruct (validate_outcome uri self) as [H|[H|[[m H]|[n H]]]];
      rewrite H in Hv; discriminate.
  - split; [vm_compute; reflexivity|]. split; [reflexivity|].
    split; [|vm_compute; reflexivity].
    assert (allowed_schemes allowing_http_https = {[ "http"; "https" ]}) as ->
      by (vm_compute; reflexivity).
    rewrite elem_of_union, !elem_of_singleton. intros [?|?]; discriminate.
Qed.

(** ** Further properties *)

(** X1: the generic rule [is_valid]. With [require] set, the result is
    truthy exactly when the value is present and the matcher matches it;
    without, exactly when the value is absent or the matcher matches
    it. *)
Theorem is_valid_rule (value : option string) (matcher : Matcher)
    (require : bool) :
  truthy (is_valid value matcher require) = true ↔
  if require
  then ∃ v, value = Some v ∧ is_Some (re_match matcher v)
  else value = None ∨ ∃ v, value = Some v ∧ is_Some (re_match matcher v).
Proof.
  unfold is_valid.
  destruct require, value as [v|]; simpl;
    try destruct (re_match matcher v) as [m|] eqn:Hm; simpl.
  - split; [eauto | reflexivity].
  - split; [discriminate | intros (v' & [= <-] & [m Hm']); congruence].
  - split; [discriminate | intros (v' & ? & _); discriminate].
  - split; [eauto | reflexivity].
  - split; [discriminate|].
    intros [?|(v' & [= <-] & [m Hm'])]; [discriminate | congruence].
  - split; [auto | reflexivity].
Qed.

(** X3: a new validator has the seven component names as the keys of
    [require_presence_of], and every configuration method keeps them,
    whether it returns or raises. *)
Theorem configuration_keeps_keys `{Normalizers} :
  keys_ok init ∧
  ∀ self,
    keys_ok self →
    (∀ schemes, keys_ok (allow_schemes schemes self).1) ∧
    (∀ hosts, keys_ok (allow_hosts hosts self).1) ∧
    (∀ ports, keys_ok (allow_ports ports self).1) ∧
    keys_ok (allow_use_of_password self).1 ∧
    keys_ok (forbid_use_of_password self).1 ∧
    (∀ components, keys_ok (require_components components self).1).
Proof.
  split; [exact keys_ok_init|]. intros self Hkeys.
  split; [intros; by apply keys_ok_allow_schemes|].
  split; [intros; by apply keys_ok_allow_hosts|].
  split; [intros; by apply keys_ok_allow_ports|].
  split; [by apply keys_ok_password|].
  split; [by apply keys_ok_password|].
  intros. by apply keys_ok_require_components.
Qed.

Lemma configuration_keeps_keys_witness :
  keys_ok init ∧
  keys_ok (require_components ["Scheme"; "host"] init).1 ∧
  keys_ok (allow_ports ["80"; "http"] init).1.
Proof.
  destruct (@configuration_keeps_keys lowercase_normalizers) as [Hinit Hstep].
  destruct (Hstep init Hinit) as (_ & _ & Hports & _ & _ & Hreq).
  split; [exact Hinit|]. split; [apply Hreq | apply Hports].
Defined.

(** ** Configuration: the allow-lists accumulate *)

Lemma for_each_app {A} (body : A → method unit) l1 l2 self :
  for_each (l1 ++ l2)%list body self
  = (for_each l1 body ;; for_each l2 body) self.
Proof.
  revert self. induction l1 as [|x l1 IH]; intros self; [reflexivity|].
  simpl. unfold bind in *.
  destruct (body x self) as [self' [[]|e]]; [apply IH | reflexivity].
Qed.

Lemma union_singleton_list_to_set `{Countable K} (x : K) (l : list K) (X : gset K) :
  list_to_set l ∪ ({[ x ]} ∪ X) = list_to_set (x :: l) ∪ X.
Proof. by rewrite list_to_set_cons, (assoc_L (∪)), (comm_L (∪) _ {[ x ]}). Qed.

Lemma allow_schemes_closed_form `{Normalizers} schemes self :
  allow_schemes schemes self
  = (with_allowed (list_to_set (normalize_scheme <$> schemes) ∪ allowed_schemes self)
       (allowed_hosts self) (allowed_ports self) self, Ok tt).
Proof.
  unfold allow_schemes. revert self.
  induction schemes as [|x l IH]; intros self.
  - simpl. unfold ret, with_allowed. rewrite (left_id_L ∅ (∪)). by destruct self.
  - simpl. unfold bind, modify. rewrite IH. unfold with_allowed. simpl.
    by rewrite union_singleton_list_to_set.
Qed.

Lemma allow_hosts_closed_form `{Normalizers} hosts self :
  allow_hosts hosts self
  = (with_allowed (allowed_schemes self)
       (list_to_set (normalize_host <$> hosts) ∪ allowed_hosts self)
       (allowed_ports self) self, Ok tt).
Proof.
  unfold allow_hosts. revert self.
  induction hosts as [|x l IH]; intros self.
  - simpl. unfold ret, with_allowed. rewrite (left_id_L ∅ (∪)). by destruct self.
  - simpl. unfold bind, modify. rewrite IH. unfold with_allowed. simpl.
    by rewrite union_singleton_list_to_set.
Qed.

Lemma list_to_set_same_elements `{Countable K} (l1 l2 : list K) :
  (∀ x, x ∈ l1 ↔ x ∈ l2) → (list_to_set l1 : gset K) = list_to_set l2.
Proof.
  intros Hsame. apply set_eq. intros x. by rewrite !elem_of_list_to_set.
Qed.

Lemma validator_eq (v w : Validator.t) :
  allowed_schemes v = allowed_schemes w →
  allowed_hosts v = allowed_hosts w →
  allowed_ports v = allowed_ports w →
  allow_password v = allow_password w →
  require_presence_of v = require_presence_of w →
  v = w.
Proof. destruct v, w. simpl. congruence. Qed.

(** X4: [allow_schemes] never raises and only adds: afterwards a scheme
    is allowed exactly when it was allowed before or is the normalised
    form of an argument, and no other attribute has changed. Two calls
    whose arguments normalise to the same schemes, in whatever order and
    however often repeated, leave the same validator. *)
Theorem allow_schemes_accumulates `{Normalizers} :
  (∀ schemes self,
     ∃ self',
       allow_schemes schemes self = (self', Ok tt) ∧
       (∀ s, s ∈ allowed_schemes self' ↔
             s ∈ allowed_schemes self ∨
             ∃ scheme, scheme ∈ schemes ∧ s = normalize_scheme scheme) ∧
       allowed_hosts self' = allowed_hosts self ∧
       allowed_ports self' = allowed_ports self ∧
       allow_password self' = allow_password self ∧
       require_presence_of self' = require_presence_of self) ∧
  (∀ schemes1 schemes2 self,
     (∀ s, s ∈ normalize_scheme <$> schemes1 ↔ s ∈ normalize_scheme <$> schemes2) →
     allow_schemes schemes1 self = allow_schemes schemes2 self).
Proof.
  split.
  - intros schemes self. eexists. split; [apply allow_schemes_closed_form|].
    simpl. repeat split; try reflexivity.
    + rewrite elem_of_union, elem_of_list_to_set, list_elem_of_fmap.
      intros [(x & -> & Hx)|?]; eauto.
    + rewrite elem_of_union, elem_of_list_to_set, list_elem_of_fmap.
      intros [?|(x & Hx & ->)]; eauto.
  - intros schemes1 schemes2 self Hsame.
    rewrite !allow_schemes_closed_form.
    by rewrite (list_to_set_same_elements _ _ Hsame).
Qed.

Lemma allow_schemes_accumulates_witness :
  (∀ s, s ∈ Py.lower <$> ["HTTP"; "https"] ↔
        s ∈ Py.lower <$> ["https"; "http"; "Http"]) ∧
  @allow_schemes lowercase_normalizers ["HTTP"; "https"] init
  = @allow_schemes lowercase_normalizers ["https"; "http"; "Http"] init.
Proof.
  assert (Hsame : ∀ s, s ∈ Py.lower <$> ["HTTP"; "https"] ↔
                       s ∈ Py.lower <$> ["https"; "http"; "Http"]).
  { intros s. vm_compute fmap. rewrite !elem_of_cons, !elem_of_nil. tauto. }
  split; [exact Hsame|].
  exact (proj2 (@allow_schemes_accumulates lowercase_normalizers) _ _ init Hsame).
Defined.

(** X5: [allow_hosts] never raises and only adds: afterwards a host is
    allowed exactly when it was allowed before or is the normalised form
    of an argument, and no other attribute has changed. Two calls whose
    arguments normalise to the same hosts leave the same validator. *)
Theorem allow_hosts_accumulates `{Normalizers} :
  (∀ hosts self,
     ∃ self',
       allow_hosts hosts self = (self', Ok tt) ∧
       (∀ h, h ∈ allowed_hosts self' ↔
             h ∈ allowed_hosts self ∨
             ∃ host, host ∈ hosts ∧ h = normalize_host host) ∧
       allowed_schemes self' = allowed_schemes self ∧
       allowed_ports self' = allowed_ports self ∧
       allow_password self' = allow_password self ∧
       require_presence_of self' = require_presence_of self) ∧
  (∀ hosts1 hosts2 self,
     (∀ h, h ∈ normalize_host <$> hosts1 ↔ h ∈ normalize_host <$> hosts2) →
     allow_hosts hosts1 self = allow_hosts hosts2 self).
Proof.
  split.
  - intros hosts self. eexists. split; [apply allow_hosts_closed_form|].
    simpl. repeat split; try reflexivity.
    + rewrite elem_of_union, elem_of_list_to_set, list_elem_of_fmap.
      intros [(x & -> & Hx)|?]; eauto.
    + rewrite elem_of_union, elem_of_list_to_set, list_elem_of_fmap.
      intros [?|(x & Hx & ->)]; eauto.
  - intros hosts1 hosts2 self Hsame.
    rewrite !allow_hosts_closed_form.
    by rewrite (list_to_set_same_elements _ _ Hsame).
Qed.

Lemma allow_hosts_accumulates_witness :
  (∀ h, h ∈ Py.lower <$> ["GitHub.com"; "127.0.0.1"] ↔
        h ∈ Py.lower <$> ["127.0.0.1"; "github.com"]) ∧
  @allow_hosts lowercase_normalizers ["GitHub.com"; "127.0.0.1"] init
  = @allow_hosts lowercase_normalizers ["127.0.0.1"; "github.com"] init.
Proof.
  assert (Hsame : ∀ h, h ∈ Py.lower <$> ["GitHub.com"; "127.0.0.1"] ↔
                       h ∈ Py.lower <$> ["127.0.0.1"; "github.com"]).
  { intros h. vm_compute fmap. rewrite !elem_of_cons, !elem_of_nil. tauto. }
  split; [exact Hsame|].
  exact (proj2 (@allow_hosts_accumulates lowercase_normalizers) _ _ init Hsame).
Defined.

(** X6: one call of an allow-method with all the arguments does what
    two chained calls with the arguments split between them do, in the
    state it leaves and in how it ends; for [allow_ports] also when an
    argument fails to parse. *)
Theorem allow_calls_chain `{Normalizers} (self : Validator.t) :
  (∀ schemes1 schemes2,
     allow_schemes (schemes1 ++ schemes2)%list self
     = (allow_schemes schemes1 ;; allow_schemes schemes2) self) ∧
  (∀ hosts1 hosts2,
     allow_hosts (hosts1 ++ hosts2)%list self
     = (allow_hosts hosts1 ;; allow_hosts hosts2) self) ∧
  (∀ ports1 ports2,
     allow_ports (ports1 ++ ports2)%list self
     = (allow_ports ports1 ;; allow_ports ports2) self).
Proof.
  repeat split; intros; apply for_each_app.
Qed.

(** ** Configuration: [allow_ports] in full *)

Lemma allow_ports_stops parsed ns bad rest self :
  Forall2 (λ port n, Py.parse_int port = Some n) parsed ns →
  Py.parse_int bad = None →
  ∃ self',
    allow_ports (parsed ++ bad :: rest)%list self
    = (self', Raise (ValueError (Py.invalid_literal bad))) ∧
    allowed_ports self'
    = list_to_set (filter port_in_range ns) ∪ allowed_ports self ∧
    allowed_schemes self' = allowed_schemes self ∧
    allowed_hosts self' = allowed_hosts self ∧
    allow_password self' = allow_password self ∧
    require_presence_of self' = require_presence_of self.
Proof.
  intros Hparsed Hbad.
  destruct (allow_ports_parsed parsed ns self Hparsed)
    as (self' & Hcall & Hfields).
  exists self'. split; [|exact Hfields].
  unfold allow_ports in *. rewrite for_each_app. unfold bind at 1.
  rewrite Hcall. fold (allow_ports (bad :: rest)).
  by rewrite allow_ports_cons, Hbad.
Qed.

(** The arguments of a call: all of them parse, or there is a first one
    that does not. *)
Lemma ports_parse_or_stop (ports : list string) :
  (∃ ns, Forall2 (λ port n, Py.parse_int port = Some n) ports ns) ∨
  (∃ parsed ns bad rest,
     ports = (parsed ++ bad :: rest)%list ∧
     Forall2 (λ port n, Py.parse_int port = Some n) parsed ns ∧
     Py.parse_int bad = None).
Proof.
  induction ports as [|port ports IH]; [left; exists []; constructor|].
  destruct (Py.parse_int port) as [n|] eqn:Hport.
  - destruct IH as [[ns Hns] | (parsed & ns & bad & rest & -> & Hns & Hbad)].
    + left. exists (n :: ns). by constructor.
    + right. exists (port :: parsed), (n :: ns), bad, rest.
      split; [reflexivity|]. split; [by constructor | assumption].
  - right. exists [], [], port, ports. split; [reflexivity|].
    split; [constructor | assumption].
Qed.

(** X7: when an argument of [allow_ports] is no integer literal, the
    call stops there with the [ValueError] of that argument: the
    in-range values of the arguments before it have been added and stay
    added, the arguments after it are never read, and no other attribute
    changes. *)
Theorem allow_ports_keeps_earlier_ports (parsed : list string) (ns : list Z)
    (bad : string) (rest : list string) (self : Validator.t) :
  Forall2 (λ port n, Py.parse_int port = Some n) parsed ns →
  Py.parse_int bad = None →
  ∃ self',
    allow_ports (parsed ++ bad :: rest)%list self
    = (self', Raise (ValueError (Py.invalid_literal bad))) ∧
    allowed_ports self'
    = list_to_set (filter port_in_range ns) ∪ allowed_ports self ∧
    allowed_schemes self' = allowed_schemes self ∧
    allowed_hosts self' = allowed_hosts self ∧
    allow_password self' = allow_password self ∧
    require_presence_of self' = require_presence_of self.
Proof. apply allow_ports_stops. Qed.

Lemma allow_ports_keeps_earlier_ports_witness :
  Forall2 (λ port n, Py.parse_int port = Some n) ["80"; "70000"] [80; 70000] ∧
  Py.parse_int "http" = None ∧
  ∃ self',
    allow_ports ["80"; "70000"; "http"; "443"] init
    = (self', Raise (ValueError (Py.invalid_literal "http"))) ∧
    allowed_ports self' = {[ 80 ]}.
Proof.
  assert (Hparsed : Forall2 (λ port n, Py.parse_int port = Some n)
                      ["80"; "70000"] [80; 70000]) by (repeat constructor).
  split; [exact Hparsed|]. split; [reflexivity|].
  destruct (allow_ports_keeps_earlier_ports
              ["80"; "70000"] [80; 70000] "http" ["443"] init Hparsed eq_refl)
    as (self' & Hcall & Hports & _).
  exists self'. split; [exact Hcall|]. rewrite Hports. vm_compute. reflexivity.
Defined.

Lemma ports_in_range_allow_ports ports self :
  ports_in_range self → ports_in_range (allow_ports ports self).1.
Proof.
  revert self. induction ports as [|port ports IH]; intros self Hself;
    [assumption|].
  rewrite allow_ports_cons. destruct (Py.parse_int port) as [n|]; [|assumption].
  apply IH. destruct (decide (port_in_range n)) as [Hn|Hn]; [|assumption].
  intros p. simpl. rewrite elem_of_union, elem_of_singleton.
  intros [->|Hp]; [assumption | by apply Hself].
Qed.

(** X8: the allowed ports are port numbers. A new validator allows
    none, and after any configuration call, returning or raising, every
    allowed port is still within [0, 65535]. *)
Theorem allowed_ports_stay_in_range `{Normalizers} :
  ports_in_range init ∧
  ∀ self,
    ports_in_range self →
    (∀ schemes, ports_in_range (allow_schemes schemes self).1) ∧
    (∀ hosts, ports_in_range (allow_hosts hosts self).1) ∧
    (∀ ports, ports_in_range (allow_ports ports self).1) ∧
    ports_in_range (allow_use_of_password self).1 ∧
    ports_in_range (forbid_use_of_password self).1 ∧
    (∀ components, ports_in_range (require_components components self).1).
Proof.
  split; [intros p Hp; by apply elem_of_empty in Hp|].
  intros self Hself.
  split; [intros; by rewrite allow_schemes_closed_form|].
  split; [intros; by rewrite allow_hosts_closed_form|].
  split; [intros; by apply ports_in_range_allow_ports|].
  split; [assumption|]. split; [assumption|].
  intros components.
  destruct (decide (Forall (λ c, Py.lower c ∈ COMPONENT_NAMES) components))
    as [Hall|Hex].
  - by rewrite require_components_valid.
  - apply not_Forall_Exists in Hex; [|apply _].
    by destruct (require_components_invalid _ self Hex) as (bad & _ & _ & ->).
Qed.

Lemma allowed_ports_stay_in_range_witness :
  ports_in_range init ∧
  ports_in_range (allow_ports ["80"; "-1"; "65536"; "x"] init).1.
Proof.
  destruct (@allowed_ports_stay_in_range lowercase_normalizers) as [Hinit Hstep].
  split; [exact Hinit|].
  by destruct (Hstep init Hinit) as (_ & _ & Hports & _).
Defined.

(** ** Configuration never takes back *)

Lemma accumulates_refl self : accumulates self self.
Proof. by repeat split. Qed.

Lemma accumulates_trans v1 v2 v3 :
  accumulates v1 v2 → accumulates v2 v3 → accumulates v1 v3.
Proof.
  intros (Hs1 & Hh1 & Hp1 & Hr1) (Hs2 & Hh2 & Hp2 & Hr2).
  repeat split; [by etrans | by etrans | by etrans |].
  intros c Hc. by apply Hr2, Hr1.
Qed.

Lemma accumulates_allow_ports ports self :
  accumulates self (allow_ports ports self).1.
Proof.
  revert self. induction ports as [|port ports IH]; intros self;
    [apply accumulates_refl|].
  rewrite allow_ports_cons.
  destruct (Py.parse_int port) as [n|]; [|apply accumulates_refl].
  eapply accumulates_trans; [|apply IH].
  destruct (decide (port_in_range n)); [|apply accumulates_refl].
  repeat split; try done. simpl. apply union_subseteq_r.
Qed.

Lemma accumulates_require_components components self :
  accumulates self (require_components components self).1.
Proof.
  destruct (decide (Forall (λ c, Py.lower c ∈ COMPONENT_NAMES) components))
    as [Hall|Hex].
  - rewrite require_components_valid by assumption.
    repeat split; try done. simpl. intros c Hc.
    rewrite lookup_union, lookup_flags, Hc. by case_decide.
  - apply not_Forall_Exists in Hex; [|apply _].
    destruct (require_components_invalid _ self Hex) as (bad & _ & _ & ->).
    apply accumulates_refl.
Qed.

(** X9: configuration only accumulates. Whatever a configuration call
    is given and however it ends, every scheme, host and port that was
    allowed before is allowed after it, and every component that was
    required before is required after it: no call removes an allowed
    value or clears a requirement. *)
Theorem configuration_accumulates `{Normalizers} (self : Validator.t) :
  (∀ schemes, accumulates self (allow_schemes schemes self).1) ∧
  (∀ hosts, accumulates self (allow_hosts hosts self).1) ∧
  (∀ ports, accumulates self (allow_ports ports self).1) ∧
  accumulates self (allow_use_of_password self).1 ∧
  accumulates self (forbid_use_of_password self).1 ∧
  (∀ components, accumulates self (require_components components self).1).
Proof.
  split.
  { intros schemes. rewrite allow_schemes_closed_form.
    repeat split; try done. simpl. apply union_subseteq_r. }
  split.
  { intros hosts. rewrite allow_hosts_closed_form.
    repeat split; try done. simpl. apply union_subseteq_r. }
  split; [intros ports; apply accumulates_allow_ports|].
  split; [by repeat split|]. split; [by repeat split|].
  intros components. apply accumulates_require_components.
Qed.

(** ** Repeating and chaining [require_components] *)

Lemma flags_union_app (names1 names2 : list string) (m : gmap string bool) :
  list_to_map ((λ component, (component, true)) <$> names2)
  ∪ (list_to_map ((λ component, (component, true)) <$> names1) ∪ m)
  = list_to_map ((λ component, (component, true)) <$> (names1 ++ names2)%list) ∪ m.
Proof.
  apply map_eq. intros k. rewrite !lookup_union, !lookup_flags.
  destruct (decide (k ∈ names1)) as [H1|H1], (decide (k ∈ names2)) as [H2|H2].
  - rewrite decide_True by (apply elem_of_app; auto). by destruct (m !! k).
  - rewrite decide_True by (apply elem_of_app; auto). by destruct (m !! k).
  - rewrite decide_True by (apply elem_of_app; auto). by destruct (m !! k).
  - rewrite decide_False; [by destruct (m !! k)|].
    intros [?|?]%elem_of_app; contradiction.
Qed.

Lemma check_names_outcome_app names1 names2 self :
  (check_names (names1 ++ names2)%list self).2
  = match (check_names names1 self).2 with
    | Ok _ => (check_names names2 self).2
    | Raise e => Raise e
    end.
Proof.
  unfold check_names. rewrite for_each_app. unfold bind at 1.
  fold (check_names names1). fold (check_names names2).
  destruct (decide (Forall (λ c, c ∈ COMPONENT_NAMES) names1)) as [Hall|Hex].
  - by rewrite check_names_valid.
  - apply not_Forall_Exists in Hex; [|apply _].
    apply Exists_first in Hex as (l1 & x & l2 & -> & Hl1 & Hx); [|apply _].
    rewrite check_names_invalid; [done| |done].
    eapply Forall_impl; [exact Hl1|]. intros c Hc. simpl in Hc.
    by destruct (decide (c ∈ COMPONENT_NAMES)).
Qed.

Lemma check_names_keeps_self names self : (check_names names self).1 = self.
Proof.
  destruct (decide (Forall (λ c, c ∈ COMPONENT_NAMES) names)) as [Hall|Hex].
  - by rewrite check_names_valid.
  - apply not_Forall_Exists in Hex; [|apply _].
    apply Exists_first in Hex as (l1 & x & l2 & -> & Hl1 & Hx); [|apply _].
    rewrite check_names_invalid; [done| |done].
    eapply Forall_impl; [exact Hl1|]. intros c Hc. simpl in Hc.
    by destruct (decide (c ∈ COMPONENT_NAMES)).
Qed.

Lemma check_names_any_self names self self' :
  (check_names names self).2 = (check_names names self').2.
Proof.
  destruct (decide (Forall (λ c, c ∈ COMPONENT_NAMES) names)) as [Hall|Hex].
  - by rewrite !check_names_valid.
  - apply not_Forall_Exists in Hex; [|apply _].
    apply Exists_first in Hex as (l1 & x & l2 & -> & Hl1 & Hx); [|apply _].
    assert (Forall (λ c, c ∈ COMPONENT_NAMES) l1).
    { eapply Forall_impl; [exact Hl1|]. intros c Hc. simpl in Hc.
      by destruct (decide (c ∈ COMPONENT_NAMES)). }
    by rewrite !check_names_invalid.
Qed.

Lemma require_components_outcome components self :
  (require_components components self).2
  = (check_names (Py.lower <$> components) self).2.
Proof.
  rewrite require_components_unfold.
  by destruct (check_names (Py.lower <$> components) self) as [self' [[]|e]].
Qed.

Lemma require_components_first_invalid valid bad rest self :
  Forall (λ c, Py.lower c ∈ COMPONENT_NAMES) valid →
  Py.lower bad ∉ COMPONENT_NAMES →
  require_components (valid ++ bad :: rest)%list self
  = (self, Raise (ValueError (not_a_valid_component (Py.lower bad)))).
Proof.
  intros Hvalid Hbad.
  rewrite require_components_unfold, fmap_app, fmap_cons.
  rewrite check_names_invalid; [reflexivity| |assumption].
  by apply Forall_fmap.
Qed.

Lemma require_components_invalid_state components self :
  Exists (λ c, Py.lower c ∉ COMPONENT_NAMES) components →
  (require_components components self).1 = self.
Proof.
  intros Hex.
  by destruct (require_components_invalid _ self Hex) as (bad & _ & _ & ->).
Qed.

(** X10: when several names are invalid, [require_components] reports
    the first of them in argument order: with valid names before it and
    anything after it, the call raises the [ValueError] naming the
    lower-cased form of that name, and the validator is unchanged. *)
Theorem require_components_reports_first_invalid (valid : list string)
    (bad : string) (rest : list string) (self : Validator.t) :
  Forall (λ c, Py.lower c ∈ COMPONENT_NAMES) valid →
  Py.lower bad ∉ COMPONENT_NAMES →
  require_components (valid ++ bad :: rest)%list self
  = (self, Raise (ValueError (not_a_valid_component (Py.lower bad)))).
Proof. apply require_components_first_invalid. Qed.

Lemma require_components_reports_first_invalid_witness :
  Forall (λ c, Py.lower c ∈ COMPONENT_NAMES) ["Scheme"] ∧
  (Py.lower "Hosts" ∉ COMPONENT_NAMES) ∧
  require_components ["Scheme"; "Hosts"; "paths"] init
  = (init, Raise (ValueError (not_a_valid_component "hosts"))).
Proof.
  assert (Hvalid : Forall (λ c, Py.lower c ∈ COMPONENT_NAMES) ["Scheme"]).
  { repeat constructor; apply elem_of_COMPONENT_NAMES; vm_compute; tauto. }
  assert (Hbad : Py.lower "Hosts" ∉ COMPONENT_NAMES).
  { vm_compute. intros H. discriminate H. }
  split; [exact Hvalid|]. split; [exact Hbad|].
  exact (require_components_reports_first_invalid
           ["Scheme"] "Hosts" ["paths"] init Hvalid Hbad).
Defined.

(** X11: chaining [require_components]. Two chained calls end as the
    single call with all the names does. They also leave the same
    validator whenever the names of the second call are all valid. When
    the first call's names are valid and the second's are not, the
    chained calls keep the first call's requirements, while the single
    call sets none. *)
Theorem require_components_chain (components1 components2 : list string)
    (self : Validator.t) :
  ((require_components components1 ;; require_components components2) self).2
  = (require_components (components1 ++ components2)%list self).2 ∧
  (Forall (λ c, Py.lower c ∈ COMPONENT_NAMES) components2 →
   (require_components components1 ;; require_components components2) self
   = require_components (components1 ++ components2)%list self) ∧
  (Forall (λ c, Py.lower c ∈ COMPONENT_NAMES) components1 →
   Exists (λ c, Py.lower c ∉ COMPONENT_NAMES) components2 →
   ((require_components components1 ;; require_components components2) self).1
   = (require_components components1 self).1 ∧
   (require_components (components1 ++ components2)%list self).1 = self).
Proof.
  assert (Hout :
    ((require_components components1 ;; require_components components2) self).2
    = (require_components (components1 ++ components2)%list self).2).
  { rewrite require_components_outcome, fmap_app, check_names_outcome_app.
    unfold bind. rewrite <- (require_components_outcome components1).
    destruct (require_components components1 self) as [self1 [[]|e]]; simpl;
      [|reflexivity].
    rewrite require_components_outcome. apply check_names_any_self. }
  split; [exact Hout|]. split.
  - intros Hvalid2.
    destruct (decide (Forall (λ c, Py.lower c ∈ COMPONENT_NAMES) components1))
      as [Hvalid1|Hex1].
    + rewrite (require_components_valid (components1 ++ components2)%list)
        by (by apply Forall_app).
      unfold bind. rewrite (require_components_valid components1) by assumption.
      rewrite (require_components_valid components2) by assumption.
      unfold update_require_presence_of. simpl.
      by rewrite fmap_app, flags_union_app.
    + apply not_Forall_Exists in Hex1; [|apply _].
      apply injective_projections; [|exact Hout].
      rewrite (require_components_invalid_state (components1 ++ components2)%list)
        by (apply Exists_app; auto).
      unfold bind.
      by destruct (require_components_invalid _ self Hex1) as (bad & _ & _ & ->).
  - intros Hvalid1 Hex2. split.
    + unfold bind. rewrite (require_components_valid components1) by assumption.
      simpl. by apply require_components_invalid_state.
    + apply require_components_invalid_state, Exists_app. auto.
Qed.

Lemma require_components_chain_witness :
  (Forall (λ c, Py.lower c ∈ COMPONENT_NAMES) ["host"] ∧
   (require_components ["scheme"] ;; require_components ["host"]) init
   = require_components ["scheme"; "host"] init) ∧
  (Forall (λ c, Py.lower c ∈ COMPONENT_NAMES) ["scheme"] ∧
   Exists (λ c, Py.lower c ∉ COMPONENT_NAMES) ["hosts"] ∧
   ((require_components ["scheme"] ;; require_components ["hosts"]) init).1
   = (require_components ["scheme"] init).1 ∧
   (require_components ["scheme"; "hosts"] init).1 = init).
Proof.
  assert (Hhost : Forall (λ c, Py.lower c ∈ COMPONENT_NAMES) ["host"]).
  { repeat constructor; apply elem_of_COMPONENT_NAMES; vm_compute; tauto. }
  assert (Hscheme : Forall (λ c, Py.lower c ∈ COMPONENT_NAMES) ["scheme"]).
  { repeat constructor; apply elem_of_COMPONENT_NAMES; vm_compute; tauto. }
  assert (Hhosts : Exists (λ c, Py.lower c ∉ COMPONENT_NAMES) ["hosts"]).
  { apply Exists_cons_hd. vm_compute. intros H. discriminate H. }
  split.
  - split; [exact Hhost|].
    exact (proj1 (proj2 (require_components_chain ["scheme"] ["host"] init)) Hhost).
  - split; [exact Hscheme|]. split; [exact Hhosts|].
    exact (proj2 (proj2 (require_components_chain ["scheme"] ["hosts"] init))
             Hscheme Hhosts).
Defined.

(** ** Repeating a configuration call *)

Lemma allow_ports_repeat ports self :
  allow_ports ports (allow_ports ports self).1 = allow_ports ports self.
Proof.
  destruct (ports_parse_or_stop ports)
    as [[ns Hns] | (parsed & ns & bad & rest & -> & Hns & Hbad)].
  - destruct (allow_ports_parsed ports ns self Hns)
      as (self1 & Hcall1 & Hp1 & Hs1 & Hh1 & Hpw1 & Hr1).
    rewrite Hcall1. simpl.
    destruct (allow_ports_parsed ports ns self1 Hns)
      as (self2 & -> & Hp2 & Hs2 & Hh2 & Hpw2 & Hr2).
    f_equal. apply validator_eq; try assumption.
    by rewrite Hp2, Hp1, (assoc_L (∪)), (idemp_L (∪)).
  - destruct (allow_ports_stops parsed ns bad rest self Hns Hbad)
      as (self1 & Hcall1 & Hp1 & Hs1 & Hh1 & Hpw1 & Hr1).
    rewrite Hcall1. simpl.
    destruct (allow_ports_stops parsed ns bad rest self1 Hns Hbad)
      as (self2 & -> & Hp2 & Hs2 & Hh2 & Hpw2 & Hr2).
    f_equal. apply validator_eq; try assumption.
    by rewrite Hp2, Hp1, (assoc_L (∪)), (idemp_L (∪)).
Qed.

Lemma require_components_repeat components self :
  require_components components (require_components components self).1
  = require_components components self.
Proof.
  destruct (decide (Forall (λ c, Py.lower c ∈ COMPONENT_NAMES) components))
    as [Hall|Hex].
  - rewrite !(require_components_valid components) by assumption.
    unfold update_require_presence_of. simpl.
    by rewrite (assoc_L (∪)), (idemp_L (∪)).
  - apply not_Forall_Exists in Hex; [|apply _].
    by rewrite (require_components_invalid_state components self Hex).
Qed.

(** X12: repeating a configuration call with the same arguments on the
    validator it left changes nothing more and ends as the first call
    did, also when the call raises. *)
Theorem configuration_calls_are_idempotent `{Normalizers} (self : Validator.t) :
  (∀ schemes,
     allow_schemes schemes (allow_schemes schemes self).1
     = allow_schemes schemes self) ∧
  (∀ hosts,
     allow_hosts hosts (allow_hosts hosts self).1 = allow_hosts hosts self) ∧
  (∀ ports,
     allow_ports ports (allow_ports ports self).1 = allow_ports ports self) ∧
  (∀ components,
     require_components components (require_components components self).1
     = require_components components self).
Proof.
  split.
  { intros schemes. rewrite !allow_schemes_closed_form. simpl.
    unfold with_allowed. simpl. by rewrite (assoc_L (∪)), (idemp_L (∪)). }
  split.
  { intros hosts. rewrite !allow_hosts_closed_form. simpl.
    unfold with_allowed. simpl. by rewrite (assoc_L (∪)), (idemp_L (∪)). }
  split; [intros ports; apply allow_ports_repeat|].
  intros components. apply require_components_repeat.
Qed.

(** ** What [validate] accepts *)

Lemma sorted_nil : Py.sorted [] = [].
Proof. reflexivity. Qed.

Lemma sorted_eq_nil l : Py.sorted l = [] → l = [].
Proof.
  unfold Py.sorted. intros Hs. apply Permutation_nil_r.
  rewrite <- Hs. by rewrite merge_sort_Permutation.
Qed.

(** [ensure_required_components_exist] on component names. *)
Lemma ensure_closed_form uri (required : list string) :
  Forall (λ c, c ∈ COMPONENT_NAMES) required →
  ensure_required_components_exist uri required
  = match Py.sorted (filter (λ c, is_None uri c = true) required) with
    | [] => Ok tt
    | missing => Raise (MissingComponentError uri missing)
    end.
Proof.
  intros Hnames. unfold ensure_required_components_exist.
  rewrite (comprehension_if_Ok _ (is_None uri)).
  - unfold mbind, result_bind. by destruct (Py.sorted _).
  - eapply Forall_impl; [exact Hnames|]. intros c Hc.
    unfold is_None, mbind, result_bind.
    destruct (getattr_component uri c Hc) as [v ->]. by destruct v.
Qed.

Lemma validate_closed_form uri self :
  keys_ok self →
  validate uri self =
  (self,
   _ ← (if allow_password self then Ok tt else check_password uri);
   match Py.sorted (filter (λ c, is_None uri c = true) (required_components self)) with
   | [] => Ok tt
   | missing => Raise (MissingComponentError uri missing)
   end).
Proof.
  intros Hkeys. rewrite validate_unfold. f_equal.
  destruct (if allow_password self then Ok tt else check_password uri)
    as [[]|e]; [|reflexivity].
  unfold mbind, result_bind.
  rewrite ensure_closed_form.
  - destruct (required_components self) as [|r rs] eqn:Hreq; [|reflexivity].
    by rewrite filter_nil, sorted_nil.
  - apply Forall_forall. intros c Hc. by eapply required_components_named.
Qed.

Lemma no_missing_component self uri :
  filter (λ c, is_None uri c = true) (required_components self) = []
  ↔ ∀ c, ¬ missing_component self uri c.
Proof.
  unfold missing_component. split.
  - intros Hnil c [Hreq Hnone].
    assert (Hin : c ∈ filter (λ c, is_None uri c = true) (required_components self)).
    { apply list_elem_of_filter. split; [by apply is_None_true|].
      by apply elem_of_required_components. }
    rewrite Hnil in Hin. by apply elem_of_nil in Hin.
  - intros Hnone. apply elem_of_nil_inv. intros c Hin.
    apply list_elem_of_filter in Hin as [Hc Hin]. apply (Hnone c).
    split; [by apply elem_of_required_components | by apply is_None_true].
Qed.

(** X13: what [validate] accepts. On a validator whose
    [require_presence_of] has the seven component names as keys,
    [validate] returns normally exactly when the password check passes
    (passwords are allowed, or the userinfo has no [:]) and no required
    component is absent; otherwise it raises [PasswordForbidden] for the
    URI or a [MissingComponentError] with a non-empty list, and nothing
    else. *)
Theorem validate_accepts_iff (self : Validator.t) (uri : URIReference) :
  keys_ok self →
  ((validate uri self).2 = Ok tt ↔
   (allow_password self = true ∨ ¬ has_credentials_separator uri) ∧
   ∀ c, ¬ missing_component self uri c) ∧
  ((validate uri self).2 = Ok tt ∨
   (validate uri self).2 = Raise (PasswordForbidden uri) ∨
   ∃ missing, missing ≠ [] ∧
     (validate uri self).2 = Raise (MissingComponentError uri missing)).
Proof.
  intros Hkeys. rewrite (validate_closed_form uri self Hkeys). simpl.
  rewrite <- no_missing_component.
  set (found := filter _ (required_components self)).
  unfold mbind, result_bind.
  destruct (allow_password self).
  - destruct (Py.sorted found) as [|m ms] eqn:Hs.
    + apply sorted_eq_nil in Hs. split; [|by left].
      split; [intros _; split; [by left | assumption] | reflexivity].
    + split.
      * split; [discriminate|]. intros [_ Hnil]. rewrite Hnil in Hs. discriminate.
      * right; right. exists (m :: ms). by split.
  - destruct (check_password_cases uri) as [[Hsep ->] | [Hnsep ->]].
    + split; [|by right; left].
      split; [discriminate|]. intros [[?|?] _]; [discriminate | contradiction].
    + destruct (Py.sorted found) as [|m ms] eqn:Hs.
      * apply sorted_eq_nil in Hs. split; [|by left].
        split; [intros _; split; [by right | assumption] | reflexivity].
      * split.
        -- split; [discriminate|]. intros [_ Hnil]. rewrite Hnil in Hs.
           discriminate.
        -- right; right. exists (m :: ms). by split.
Qed.

Lemma validate_accepts_iff_witness :
  keys_ok requiring_scheme_host_path ∧
  ((validate (uri_with_userinfo "user") requiring_scheme_host_path).2 = Ok tt ↔
   (allow_password requiring_scheme_host_path = true ∨
    ¬ has_credentials_separator (uri_with_userinfo "user")) ∧
   ∀ c, ¬ missing_component requiring_scheme_host_path
            (uri_with_userinfo "user") c).
Proof.
  assert (Hkeys : keys_ok requiring_scheme_host_path)
    by apply keys_ok_require_components, keys_ok_init.
  split; [exact Hkeys|].
  exact (proj1 (validate_accepts_iff requiring_scheme_host_path
                  (uri_with_userinfo "user") Hkeys)).
Defined.

(** ** Requiring components, then validating *)

Lemma init_requires_nothing k : require_presence_of init !! k ≠ Some true.
Proof.
  unfold init. simpl. rewrite !lookup_insert, lookup_empty.
  repeat case_decide; discriminate.
Qed.

Lemma lookup_after_require_components components self k :
  Forall (λ c, Py.lower c ∈ COMPONENT_NAMES) components →
  require_presence_of (require_components components self).1 !! k
  = if decide (k ∈ Py.lower <$> components) then Some true
    else require_presence_of self !! k.
Proof.
  intros Hvalid. rewrite require_components_valid by assumption. simpl.
  rewrite lookup_union, lookup_flags. case_decide.
  - by destruct (require_presence_of self !! k).
  - by rewrite (left_id_L None (∪)).
Qed.

Lemma required_after_require_components components k :
  Forall (λ c, Py.lower c ∈ COMPONENT_NAMES) components →
  require_presence_of (require_components components init).1 !! k = Some true
  ↔ k ∈ Py.lower <$> components.
Proof.
  intros Hvalid. rewrite lookup_after_require_components by assumption.
  case_decide; [done|]. split; [|done].
  intros Hk. by apply init_requires_nothing in Hk.
Qed.

(** X14: requiring components and then validating. With valid names,
    the validator that [require_components] leaves on a new
    [Validator()] accepts a URI exactly when the URI has every named
    component (each name taken in lower case), whatever its userinfo. *)
Theorem require_then_validate (components : list string) (uri : URIReference) :
  Forall (λ c, Py.lower c ∈ COMPONENT_NAMES) components →
  (validate uri (require_components components init).1).2 = Ok tt
  ↔ ∀ c, c ∈ components → present_component uri (Py.lower c).
Proof.
  intros Hvalid.
  assert (Hkeys : keys_ok (require_components components init).1)
    by apply keys_ok_require_components, keys_ok_init.
  rewrite (proj1 (validate_accepts_iff _ uri Hkeys)).
  assert (Hallow : allow_password (require_components components init).1 = true)
    by (by rewrite require_components_valid).
  unfold missing_component, present_component. split.
  - intros [_ Hnone] c Hc.
    destruct (getattr_component uri (Py.lower c)) as [[v|] Hv];
      [by eapply Forall_forall in Hvalid | by eauto |].
    destruct (Hnone (Py.lower c)). split; [|assumption].
    apply required_after_require_components; [assumption|].
    by apply list_elem_of_fmap_2.
  - intros Hpresent. split; [by left|]. intros k [Hreq Hnone].
    apply required_after_require_components in Hreq; [|assumption].
    apply list_elem_of_fmap in Hreq as (c & -> & Hc).
    destruct (Hpresent c Hc) as [v Hv]. congruence.
Qed.

Lemma require_then_validate_witness :
  Forall (λ c, Py.lower c ∈ COMPONENT_NAMES) ["Scheme"; "host"] ∧
  ((validate (uri_with_userinfo "user:pass")
      (require_components ["Scheme"; "host"] init).1).2 = Ok tt
   ↔ ∀ c, c ∈ ["Scheme"; "host"] →
          present_component (uri_with_userinfo "user:pass") (Py.lower c)).
Proof.
  assert (Hvalid : Forall (λ c, Py.lower c ∈ COMPONENT_NAMES) ["Scheme"; "host"]).
  { repeat constructor; apply elem_of_COMPONENT_NAMES; vm_compute; tauto. }
  split; [exact Hvalid|].
  exact (require_then_validate ["Scheme"; "host"]
           (uri_with_userinfo "user:pass") Hvalid).
Defined.

(** ** The required-components check on its own *)

Lemma sorted_Permutation l1 l2 : l1 ≡ₚ l2 → Py.sorted l1 = Py.sorted l2.
Proof.
  intros Hperm. unfold Py.sorted.
  apply (StronglySorted_unique String.le).
  - apply StronglySorted_merge_sort; apply _.
  - apply StronglySorted_merge_sort; apply _.
  - by rewrite !merge_sort_Permutation.
Qed.

(** X15: the required-components check on a list of component names.
    It returns normally exactly when the URI has each of them; otherwise
    it raises one [MissingComponentError] whose names are those of the
    list that the URI lacks, as often as the list has them, in ascending
    order. The names given in another order give the same result. *)
Theorem ensure_required_components_exist_on_names (uri : URIReference)
    (required : list string) :
  Forall (λ c, c ∈ COMPONENT_NAMES) required →
  (ensure_required_components_exist uri required = Ok tt
   ↔ Forall (present_component uri) required) ∧
  (∀ e, ensure_required_components_exist uri required = Raise e →
     ∃ missing,
       e = MissingComponentError uri missing ∧
       missing ≡ₚ filter (λ c, is_None uri c = true) required ∧
       StronglySorted String.le missing) ∧
  (∀ reordered, required ≡ₚ reordered →
     ensure_required_components_exist uri reordered
     = ensure_required_components_exist uri required).
Proof.
  intros Hnames. split; [|split].
  - rewrite (ensure_closed_form uri required Hnames).
    destruct (Py.sorted _) as [|m ms] eqn:Hs.
    + apply sorted_eq_nil in Hs. split; [|reflexivity]. intros _.
      apply Forall_forall. intros c Hc.
      destruct (getattr_component uri c) as [[v|] Hv];
        [by eapply Forall_forall in Hnames | by exists v |].
      assert (Hin : c ∈ filter (λ c, is_None uri c = true) required).
      { apply list_elem_of_filter. split; [by apply is_None_true | assumption]. }
      rewrite Hs in Hin. by apply elem_of_nil in Hin.
    + split; [discriminate|]. intros Hall.
      assert (Hin : m ∈ Py.sorted (filter (λ c, is_None uri c = true) required))
        by (rewrite Hs; apply list_elem_of_here).
      apply elem_of_sorted, list_elem_of_filter in Hin as [Hnone Hin].
      apply is_None_true in Hnone.
      rewrite Forall_forall in Hall. destruct (Hall m Hin) as [v Hv]. congruence.
  - intros e. rewrite (ensure_closed_form uri required Hnames).
    destruct (Py.sorted _) as [|m ms] eqn:Hs; [discriminate|].
    intros [= <-]. exists (m :: ms). split; [reflexivity|].
    rewrite <- Hs. unfold Py.sorted. split.
    + apply merge_sort_Permutation.
    + apply StronglySorted_merge_sort; apply _.
  - intros reordered Hperm.
    rewrite !ensure_closed_form; [|assumption | by rewrite <- Hperm].
    assert (Py.sorted (filter (λ c, is_None uri c = true) reordered)
            = Py.sorted (filter (λ c, is_None uri c = true) required)) as ->;
      [|reflexivity].
    apply sorted_Permutation. by rewrite Hperm.
Qed.

Lemma ensure_required_components_exist_on_names_witness :
  Forall (λ c, c ∈ COMPONENT_NAMES) ["path"; "host"; "path"] ∧
  ensure_required_components_exist uri_only_scheme ["path"; "host"; "path"]
  = Raise (MissingComponentError uri_only_scheme ["host"; "path"; "path"]) ∧
  ∃ missing,
    MissingComponentError uri_only_scheme ["host"; "path"; "path"]
    = MissingComponentError uri_only_scheme missing ∧
    missing ≡ₚ filter (λ c, is_None uri_only_scheme c = true)
                 ["path"; "host"; "path"] ∧
    StronglySorted String.le missing.
Proof.
  assert (Hnames : Forall (λ c, c ∈ COMPONENT_NAMES) ["path"; "host"; "path"]).
  { repeat constructor; apply elem_of_COMPONENT_NAMES; tauto. }
  assert (Hraise :
    ensure_required_components_exist uri_only_scheme ["path"; "host"; "path"]
    = Raise (MissingComponentError uri_only_scheme ["host"; "path"; "path"]))
    by (vm_compute; reflexivity).
  split; [exact Hnames|]. split; [exact Hraise|].
  exact (proj1 (proj2 (ensure_required_components_exist_on_names
                         uri_only_scheme ["path"; "host"; "path"] Hnames))
           _ Hraise).
Defined.

(** ** Allowing and forbidding passwords *)

(** X16: the password switch. After [allow_use_of_password], [validate]
    never raises [PasswordForbidden]; after [forbid_use_of_password] it
    raises it exactly for the URIs whose userinfo has a [:]. Only the
    last of the two calls counts. *)
Theorem password_switch (self : Validator.t) (uri : URIReference) :
  (∀ uri', (validate uri (allow_use_of_password self).1).2
           ≠ Raise (PasswordForbidden uri')) ∧
  ((validate uri (forbid_use_of_password self).1).2
   = Raise (PasswordForbidden uri)
   ↔ has_credentials_separator uri) ∧
  allow_use_of_password (forbid_use_of_password self).1
  = allow_use_of_password self ∧
  forbid_use_of_password (allow_use_of_password self).1
  = forbid_use_of_password self.
Proof.
  split; [|split; [|by split]].
  - intros uri' Hv.
    destruct (validate_outcome uri (allow_use_of_password self).1)
      as [Hok | [Hpf | [[m Hm] | [n Hn]]]]; try congruence.
    by apply validate_PasswordForbidden in Hpf as [? _].
  - rewrite validate_PasswordForbidden. simpl. tauto.
Qed.

(** ** The authority check in full *)

Lemma valid_ipv4_Raise_inv host e :
  valid_ipv4_host_address host = Raise e →
  ∃ part,
    part ∈ Py.split "." host ∧ Py.parse_int part = None ∧
    e = ValueError (Py.invalid_literal part).
Proof.
  unfold valid_ipv4_host_address.
  set (f := λ byte : string, Py.int byte ≫= _).
  unfold mbind at 1. unfold result_bind.
  destruct (comprehension f (Py.split "." host)) as [bs|e'] eqn:Hc;
    [discriminate|].
  intros [= ->].
  apply comprehension_Raise_elem in Hc as (part & Hin & Hpart).
  unfold f, mbind, result_bind in Hpart.
  destruct (Py.int part) as [n|e'] eqn:Hint; [discriminate|].
  injection Hpart as ->. exists part. split; [assumption|].
  split; [apply int_Raise; eauto | by apply int_raises_ValueError in Hint].
Qed.

(** X2: [authority_is_valid] never accepts what the grammar rejects.
    A truthy answer means that the subauthority check was truthy and
    that, when the host given matches the IPv4 shape, each of its
    dot-separated parts is an integer in [0, 255]; a falsy grammar
    result is returned as it is. The call raises only when the IPv4
    matcher matched a host with a part that is no integer literal, and
    then it is the [ValueError] of [int] for such a part. An absent
    authority that is not required is still reported through the byte
    check when an IPv4-shaped host is given. *)
Theorem authority_is_valid_sound `{Misc} (authority host : option string)
    (require : bool) :
  (∀ v, authority_is_valid authority host require = Ok v →
     truthy v = true →
     truthy (is_valid authority SUBAUTHORITY_MATCHER require) = true ∧
     ∀ h, host = Some h → is_Some (re_match IPv4_MATCHER h) →
          Forall (part_in_range 0 255) (Py.split "." h)) ∧
  (truthy (is_valid authority SUBAUTHORITY_MATCHER require) = false →
   authority_is_valid authority host require
   = Ok (is_valid authority SUBAUTHORITY_MATCHER require)) ∧
  (∀ e, authority_is_valid authority host require = Raise e →
     ∃ h part,
       host = Some h ∧ is_Some (re_match IPv4_MATCHER h) ∧
       part ∈ Py.split "." h ∧ Py.parse_int part = None ∧
       e = ValueError (Py.invalid_literal part)) ∧
  (∀ h, authority = None → require = false → host = Some h →
     is_Some (re_match IPv4_MATCHER h) →
     authority_is_valid authority host require
     = PyBool <$> valid_ipv4_host_address h).
Proof.
  unfold authority_is_valid.
  set (validated := is_valid authority SUBAUTHORITY_MATCHER require).
  split; [|split; [|split]].
  - intros v Hv Htruthy. destruct host as [h|].
    + destruct (re_match IPv4_MATCHER h) as [m|] eqn:Hm; simpl in Hv.
      * destruct (truthy validated) eqn:Hval; simpl in Hv.
        -- split; [reflexivity|]. intros h' [= <-] _.
           apply valid_ipv4_true.
           destruct (valid_ipv4_host_address h) as [b|e]; [|discriminate].
           injection Hv as <-. simpl in Htruthy. by subst b.
        -- injection Hv as <-. congruence.
      * rewrite andb_false_r in Hv. injection Hv as <-.
        split; [assumption|]. intros h' [= <-] [m' ?]. congruence.
    + injection Hv as <-. split; [assumption|]. discriminate.
  - intros Hfalse. destruct host as [h|]; [|reflexivity].
    by rewrite Hfalse.
  - intros e He. destruct host as [h|]; [|discriminate].
    destruct (truthy validated && truthy (of_match (re_match IPv4_MATCHER h)))
      eqn:Hcond; [|discriminate].
    apply andb_true_iff in Hcond as [_ Hm].
    destruct (valid_ipv4_host_address h) as [b|e'] eqn:Hip; [discriminate|].
    injection He as ->.
    apply valid_ipv4_Raise_inv in Hip as (part & Hin & Hpart & ->).
    exists h, part. repeat split; try assumption.
    by destruct (re_match IPv4_MATCHER h).
  - intros h -> -> -> [m Hm]. unfold validated. simpl. by rewrite Hm.
Qed.

Lemma authority_is_valid_sound_witness :
  (@authority_is_valid dotted_decimal_misc (Some "1.2.3.4") (Some "1.2.3.4") false
   = Ok (PyBool true) ∧
   truthy (PyBool true) = true ∧
   truthy (is_valid (Some "1.2.3.4")
             (@SUBAUTHORITY_MATCHER dotted_decimal_misc) false) = true ∧
   Forall (part_in_range 0 255) (Py.split "." "1.2.3.4")) ∧
  (truthy (is_valid None (@SUBAUTHORITY_MATCHER dotted_decimal_misc) true) = false ∧
   @authority_is_valid dotted_decimal_misc None (Some "1.2.3.4") true
   = Ok (PyBool false)) ∧
  (@authority_is_valid any_text_misc (Some "x") (Some "1'2.3.4") false
   = Raise (ValueError (Py.invalid_literal "1'2")) ∧
   ∃ h part,
     Some "1'2.3.4" = Some h ∧
     is_Some (re_match (@IPv4_MATCHER any_text_misc) h) ∧
     part ∈ Py.split "." h ∧ Py.parse_int part = None ∧
     ValueError (Py.invalid_literal "1'2") = ValueError (Py.invalid_literal part)) ∧
  (is_Some (re_match (@IPv4_MATCHER dotted_decimal_misc) "999.1.1.1") ∧
   @authority_is_valid dotted_decimal_misc None (Some "999.1.1.1") false
   = Ok (PyBool false)).
Proof.
  assert (Hm : is_Some (re_match (@IPv4_MATCHER dotted_decimal_misc) "1.2.3.4"))
    by (vm_compute; eauto).
  assert (H999 : is_Some (re_match (@IPv4_MATCHER dotted_decimal_misc) "999.1.1.1"))
    by (vm_compute; eauto).
  assert (Hok : @authority_is_valid dotted_decimal_misc
                  (Some "1.2.3.4") (Some "1.2.3.4") false = Ok (PyBool true))
    by reflexivity.
  assert (Hraise : @authority_is_valid any_text_misc (Some "x") (Some "1'2.3.4") false
                   = Raise (ValueError (Py.invalid_literal "1'2")))
    by reflexivity.
  split; [|split; [|split]].
  - split; [exact Hok|]. split; [reflexivity|].
    destruct (proj1 (@authority_is_valid_sound dotted_decimal_misc
                       (Some "1.2.3.4") (Some "1.2.3.4") false)
                _ Hok eq_refl) as [Htruthy Hparts].
    split; [exact Htruthy|]. exact (Hparts "1.2.3.4" eq_refl Hm).
  - split; [reflexivity|].
    exact (proj1 (proj2 (@authority_is_valid_sound dotted_decimal_misc
                           None (Some "1.2.3.4") true)) eq_refl).
  - split; [exact Hraise|].
    exact (proj1 (proj2 (proj2 (@authority_is_valid_sound any_text_misc
                                  (Some "x") (Some "1'2.3.4") false)))
             _ Hraise).
  - split; [exact H999|].
    rewrite (proj2 (proj2 (proj2 (@authority_is_valid_sound dotted_decimal_misc
                                    None (Some "999.1.1.1") false)))
               "999.1.1.1" eq_refl eq_refl eq_refl H999).
    reflexivity.
Defined.

(** ** The byte check on digits *)

Lemma parse_int_digit_first c s :
  is_Some (Py.digit_value c) →
  Py.parse_int (String c s) = Py.parse_unsigned (String c s).
Proof.
  intros [d Hd].
  destruct c as [[] [] [] [] [] [] [] []];
    first [ by vm_compute in Hd | reflexivity ].
Qed.

Lemma scan_digits_all_digits s acc :
  Forall (λ c, is_Some (Py.digit_value c)) (chars s) →
  Py.scan_digits acc false s = Some (decimal_from acc s, "").
Proof.
  unfold chars. revert acc. induction s as [|c s IH]; intros acc Hall;
    [reflexivity|].
  simpl in Hall. apply Forall_cons in Hall as [[d Hd] Hall].
  simpl. rewrite Hd. simpl. by apply IH.
Qed.

Lemma parse_int_digit_string s :
  digit_string s → Py.parse_int s = Some (decimal s).
Proof.
  intros [Hne Hall]. destruct s as [|c s]; [done|].
  assert (Hc : is_Some (Py.digit_value c)).
  { unfold chars in Hall. simpl in Hall. by apply Forall_cons in Hall as [? _]. }
  rewrite parse_int_digit_first by assumption.
  unfold Py.parse_unsigned. destruct Hc as [d Hd]. rewrite Hd.
  by rewrite (scan_digits_all_digits _ 0 Hall).
Qed.

Lemma digit_value_bounds c d : Py.digit_value c = Some d → 0 ≤ d ≤ 9.
Proof.
  unfold Py.digit_value.
  destruct (_ && _) eqn:Hrange; [|discriminate]. intros [= <-]. lia.
Qed.

Lemma decimal_from_nonneg s acc :
  Forall (λ c, is_Some (Py.digit_value c)) (chars s) →
  0 ≤ acc → 0 ≤ decimal_from acc s.
Proof.
  unfold chars. revert acc. induction s as [|c s IH]; intros acc Hall Hacc;
    [assumption|].
  simpl in Hall. apply Forall_cons in Hall as [[d Hd] Hall].
  simpl. rewrite Hd. simpl. apply IH; [assumption|].
  apply digit_value_bounds in Hd. lia.
Qed.

Lemma comprehension_fmap {A B} (f : A → result B) (g : A → B) l :
  Forall (λ x, f x = Ok (g x)) l → comprehension f l = Ok (g <$> l).
Proof.
  induction 1 as [|x l Hx _ IH]; [reflexivity|].
  simpl. unfold mbind, result_bind. by rewrite Hx, IH.
Qed.

Lemma all_fmap {A} (g : A → bool) l : Py.all (g <$> l) = forallb g l.
Proof.
  unfold Py.all. induction l as [|x l IH]; [reflexivity|].
  rewrite fmap_cons. simpl. f_equal. exact IH.
Qed.

(** X17: on a host whose dot-separated parts are all non-empty texts of
    decimal digits (of at most 4300 digits each),
    [valid_ipv4_host_address] never raises, and it returns true exactly
    when the number each part writes is at most 255; leading zeros do
    not matter. *)
Theorem valid_ipv4_host_address_on_digits (host : string) :
  Forall decimal_literal (Py.split "." host) →
  valid_ipv4_host_address host
  = Ok (forallb (λ part, decimal part <=? 255) (Py.split "." host)).
Proof.
  intros Hliterals.
  assert (Hdigits : Forall digit_string (Py.split "." host))
    by (eapply Forall_impl; [exact Hliterals | by intros part [? _]]).
  unfold valid_ipv4_host_address.
  rewrite (comprehension_fmap _ (λ part, decimal part <=? 255)).
  - simpl. by rewrite all_fmap.
  - eapply Forall_impl; [exact Hdigits|]. intros part Hpart.
    unfold mbind, result_bind, Py.int.
    rewrite (parse_int_digit_string part Hpart). f_equal.
    destruct Hpart as [_ Hall].
    assert (0 ≤ decimal part) by (by apply decimal_from_nonneg).
    assert ((0 <=? decimal part) = true) as -> by lia. reflexivity.
Qed.

Lemma valid_ipv4_host_address_on_digits_witness :
  Forall decimal_literal (Py.split "." "010.0.255.256") ∧
  valid_ipv4_host_address "010.0.255.256" = Ok false.
Proof.
  assert (Hdigits : Forall decimal_literal (Py.split "." "010.0.255.256")).
  { vm_compute Py.split. unfold decimal_literal, int_max_str_digits.
    repeat constructor;
      first [ discriminate | by eexists | simpl; lia ]. }
  split; [exact Hdigits|].
  by rewrite (valid_ipv4_host_address_on_digits "010.0.255.256" Hdigits).
Defined.

(** X18: ports written as non-empty texts of decimal digits (of at
    most 4300 digits each). [allow_ports] then never raises; afterwards a port is allowed
    exactly when it was allowed before or is the number of an argument
    and at most 65535, and no other attribute has changed. *)
Theorem allow_ports_on_digits (ports : list string) (self : Validator.t) :
  Forall decimal_literal ports →
  ∃ self',
    allow_ports ports self = (self', Ok tt) ∧
    (∀ p, p ∈ allowed_ports self' ↔
          p ∈ allowed_ports self ∨
          ∃ port, port ∈ ports ∧ p = decimal port ∧ p ≤ 65535) ∧
    allowed_schemes self' = allowed_schemes self ∧
    allowed_hosts self' = allowed_hosts self ∧
    allow_password self' = allow_password self ∧
    require_presence_of self' = require_presence_of self.
Proof.
  intros Hliterals.
  assert (Hdigits : Forall digit_string ports)
    by (eapply Forall_impl; [exact Hliterals | by intros port [? _]]).
  assert (Hparse : Forall2 (λ port n, Py.parse_int port = Some n)
                     ports (decimal <$> ports)).
  { apply Forall2_fmap_r, Forall_Forall2_diag.
    eapply Forall_impl; [exact Hdigits|]. apply parse_int_digit_string. }
  destruct (allow_ports_parsed ports _ self Hparse)
    as (self' & Hcall & Hports & Hrest).
  exists self'. split; [exact Hcall|]. split; [|exact Hrest].
  intros p. rewrite Hports, elem_of_union, elem_of_list_to_set,
    list_elem_of_filter, list_elem_of_fmap. unfold port_in_range. split.
  - intros [[Hp (port & -> & Hin)]|?]; [right | by left].
    exists port. repeat split; [assumption | lia].
  - intros [?|(port & Hin & -> & Hle)]; [by right | left].
    split; [|by exists port].
    rewrite Forall_forall in Hdigits. destruct (Hdigits port Hin) as [_ Hall].
    split; [by apply decimal_from_nonneg | assumption].
Qed.

Lemma allow_ports_on_digits_witness :
  Forall decimal_literal ["0080"; "65536"] ∧
  ∃ self',
    allow_ports ["0080"; "65536"] init = (self', Ok tt) ∧
    (80 ∈ allowed_ports self') ∧ (65536 ∉ allowed_ports self').
Proof.
  assert (Hdigits : Forall decimal_literal ["0080"; "65536"]).
  { unfold decimal_literal, int_max_str_digits.
    repeat constructor; first [ discriminate | by eexists | simpl; lia ]. }
  split; [exact Hdigits|].
  destruct (allow_ports_on_digits ["0080"; "65536"] init Hdigits)
    as (self' & Hcall & Hports & _).
  exists self'. split; [exact Hcall|]. split.
  - apply Hports. right. exists "0080".
    split; [apply list_elem_of_here|]. split; [reflexivity | vm_compute; discriminate].
  - intros [Hin|(port & Hin & Hp & Hle)]%Hports.
    + by apply elem_of_empty in Hin.
    + lia.
Defined.
